(** * CareLink: escrow payments, provider matching, emergency escalation

    A shallow embedding of the decision logic of the CareLink backend:

    - [services/payhere.service.ts]: webhook signature verification, the
      fee split, and the payment-status transitions of a booking;
    - [services/bookingMatch.service.ts]: booking creation and the PostGIS
      provider query with its ordering and result formatting;
    - [services/emergencyEscalation.service.ts]: the emergency button;
    - the SQL migration holding [calculate_provider_trust_score].

    Conventions.  A JavaScript [string] is a [String.string] (a byte
    string: the embedding covers ASCII text).  The Prisma client is a
    record of tables threaded through a state-and-exception monad: a
    [throw] keeps every write made before it, as the code runs no
    transaction.  JavaScript numbers that take part in exact money
    arithmetic are IEEE binary64 values ([PrimFloat.float]); quantities
    that are only compared, filtered and rounded for display (trust
    scores, distances, SQL aggregates) are the rationals they denote. *)

From Stdlib Require Import ZArith QArith Qround Qabs Lqa Floats String Ascii List Bool Lia.
From Stdlib Require Import Sorting.Sorted Sorting.Permutation.
From stdpp Require Import gmap strings list.
Import ListNotations.

(** ** JavaScript strings *)

Module JsString.
Local Open Scope string_scope.

(** [String.prototype.toUpperCase] on ASCII letters. *)
Definition upper_ascii (c : ascii) : ascii :=
  let n := N_of_ascii c in
  if ((97 <=? n) && (n <=? 122))%N then ascii_of_N (n - 32) else c.

Fixpoint toUpperCase (s : string) : string :=
  match s with
  | EmptyString => EmptyString
  | String c r => String (upper_ascii c) (toUpperCase r)
  end.

Definition lower_ascii (c : ascii) : ascii :=
  let n := N_of_ascii c in
  if ((65 <=? n) && (n <=? 90))%N then ascii_of_N (n + 32) else c.

Fixpoint toLowerCase (s : string) : string :=
  match s with
  | EmptyString => EmptyString
  | String c r => String (lower_ascii c) (toLowerCase r)
  end.

(** [s.includes(t)]: [t] occurs in [s] as a contiguous substring. *)
Fixpoint includes (s t : string) : bool :=
  if String.prefix t s then true
  else match s with
       | EmptyString => false
       | String _ r => includes r t
       end.

(** Truthiness of a string: [''] is falsy. *)
Definition truthy (s : string) : bool :=
  match s with EmptyString => false | _ => true end.

(** [o || d] for a possibly undefined (or null) string [o]. *)
Definition or_default (o : option string) (d : string) : string :=
  match o with
  | Some s => if truthy s then s else d
  | None => d
  end.

(** Every character of [s] satisfies [p]. *)
Fixpoint string_forallb (p : ascii -> bool) (s : string) : bool :=
  match s with
  | EmptyString => true
  | String c r => p c && string_forallb p r
  end.

(** [c] is one of [0-9A-F]. *)
Definition is_upper_hex (c : ascii) : bool :=
  let n := N_of_ascii c in
  (((48 <=? n) && (n <=? 57)) || ((65 <=? n) && (n <=? 70)))%N.

End JsString.

(** ** MD5 ([crypto.createHash('md5').update(s).digest('hex')]) *)

Module MD5.
Local Open Scope Z_scope.

Definition w32 (x : Z) : Z := x mod 2 ^ 32.

Definition rotl32 (x c : Z) : Z :=
  w32 (Z.lor (Z.shiftl x c) (Z.shiftr x (32 - c))).

Definition not32 (x : Z) : Z := Z.lxor x 0xffffffff.

Definition s_table : list Z :=
  [7; 12; 17; 22; 7; 12; 17; 22; 7; 12; 17; 22; 7; 12; 17; 22;
   5;  9; 14; 20; 5;  9; 14; 20; 5;  9; 14; 20; 5;  9; 14; 20;
   4; 11; 16; 23; 4; 11; 16; 23; 4; 11; 16; 23; 4; 11; 16; 23;
   6; 10; 15; 21; 6; 10; 15; 21; 6; 10; 15; 21; 6; 10; 15; 21].

Definition K_table : list Z :=
  [0xd76aa478; 0xe8c7b756; 0x242070db; 0xc1bdceee;
   0xf57c0faf; 0x4787c62a; 0xa8304613; 0xfd469501;
   0x698098d8; 0x8b44f7af; 0xffff5bb1; 0x895cd7be;
   0x6b901122; 0xfd987193; 0xa679438e; 0x49b40821;
   0xf61e2562; 0xc040b340; 0x265e5a51; 0xe9b6c7aa;
   0xd62f105d; 0x02441453; 0xd8a1e681; 0xe7d3fbc8;
   0x21e1cde6; 0xc33707d6; 0xf4d50d87; 0x455a14ed;
   0xa9e3e905; 0xfcefa3f8; 0x676f02d9; 0x8d2a4c8a;
   0xfffa3942; 0x8771f681; 0x6d9d6122; 0xfde5380c;
   0xa4beea44; 0x4bdecfa9; 0xf6bb4b60; 0xbebfbc70;
   0x289b7ec6; 0xeaa127fa; 0xd4ef3085; 0x04881d05;
   0xd9d4d039; 0xe6db99e5; 0x1fa27cf8; 0xc4ac5665;
   0xf4292244; 0x432aff97; 0xab9423a7; 0xfc93a039;
   0x655b59c3; 0x8f0ccc92; 0xffeff47d; 0x85845dd1;
   0x6fa87e4f; 0xfe2ce6e0; 0xa3014314; 0x4e0811a1;
   0xf7537e82; 0xbd3af235; 0x2ad7d2bb; 0xeb86d391].

Record regs := Regs { rA : Z; rB : Z; rC : Z; rD : Z }.

Definition init_regs : regs := Regs 0x67452301 0xefcdab89 0x98badcfe 0x10325476.

(** One of the 64 operations on a 16-word block [m]. *)
Definition md5_step (m : list Z) (r : regs) (i : nat) : regs :=
  let '(Regs a b c d) := r in
  let iz := Z.of_nat i in
  let '(f, g) :=
    if iz <? 16 then (Z.lor (Z.land b c) (Z.land (not32 b) d), iz)
    else if iz <? 32 then (Z.lor (Z.land d b) (Z.land (not32 d) c), (5 * iz + 1) mod 16)
    else if iz <? 48 then (Z.lxor (Z.lxor b c) d, (3 * iz + 5) mod 16)
    else (Z.lxor c (Z.lor b (not32 d)), (7 * iz) mod 16) in
  let f' := w32 (f + a + nth i K_table 0 + nth (Z.to_nat g) m 0) in
  Regs d (w32 (b + rotl32 f' (nth i s_table 0))) b c.

Definition md5_block (r : regs) (m : list Z) : regs :=
  let r' := fold_left (md5_step m) (seq 0 64) r in
  Regs (w32 (rA r + rA r')) (w32 (rB r + rB r')) (w32 (rC r + rC r')) (w32 (rD r + rD r')).

(** Little-endian bytes of a word and back. *)
Definition le_bytes (n : nat) (x : Z) : list Z :=
  map (fun k => Z.land (Z.shiftr x (8 * Z.of_nat k)) 0xff) (seq 0 n).

Fixpoint le_words (n : nat) (bs : list Z) : list Z :=
  match n, bs with
  | S n', b0 :: b1 :: b2 :: b3 :: r =>
      (b0 + Z.shiftl b1 8 + Z.shiftl b2 16 + Z.shiftl b3 24) :: le_words n' r
  | _, _ => []
  end.

Definition pad (bs : list Z) : list Z :=
  let len := Z.of_nat (List.length bs) in
  bs ++ [0x80] ++ repeat 0 (Z.to_nat ((55 - len) mod 64)) ++ le_bytes 8 (8 * len).

Fixpoint md5_blocks (n : nat) (r : regs) (bs : list Z) : regs :=
  match n with
  | O => r
  | S n' => md5_blocks n' (md5_block r (le_words 16 (firstn 64 bs))) (skipn 64 bs)
  end.

Definition digest (bs : list Z) : list Z :=
  let p := pad bs in
  let r := md5_blocks (Nat.div (List.length p) 64) init_regs p in
  le_bytes 4 (rA r) ++ le_bytes 4 (rB r) ++ le_bytes 4 (rC r) ++ le_bytes 4 (rD r).

Definition hex_digit (x : Z) : ascii :=
  ascii_of_N (Z.to_N (if x <? 10 then 48 + x else 87 + x)).

Fixpoint hex (bs : list Z) : string :=
  match bs with
  | [] => EmptyString
  | b :: r => String (hex_digit (Z.shiftr b 4)) (String (hex_digit (Z.land b 0xf)) (hex r))
  end.

Definition bytes_of_string (s : string) : list Z :=
  map (fun c => Z.of_N (N_of_ascii c)) (list_ascii_of_string s).

(** [crypto.createHash('md5').update(s).digest('hex')]: lower-case hex. *)
Definition md5_hex (s : string) : string := hex (digest (bytes_of_string s)).

End MD5.

(** ** The Prisma schema, as far as the services use it *)

(** Modelled from the spec: the Prisma enum [BookingStatus] (the schema file
    is not part of the sources; the services name [PENDING], [MATCHED],
    [CONFIRMED], [IN_PROGRESS] and [DISPUTED], the SQL names ['COMPLETED']). *)
Module BookingStatus.
Inductive t := PENDING | MATCHED | CONFIRMED | IN_PROGRESS | COMPLETED | CANCELLED | DISPUTED.

Definition eqb (a b : t) : bool :=
  match a, b with
  | PENDING, PENDING | MATCHED, MATCHED | CONFIRMED, CONFIRMED
  | IN_PROGRESS, IN_PROGRESS | COMPLETED, COMPLETED | CANCELLED, CANCELLED
  | DISPUTED, DISPUTED => true
  | _, _ => false
  end.

(** The enum value as it prints inside a template string. *)
Definition to_string (s : t) : string :=
  match s with
  | PENDING => "PENDING" | MATCHED => "MATCHED" | CONFIRMED => "CONFIRMED"
  | IN_PROGRESS => "IN_PROGRESS" | COMPLETED => "COMPLETED"
  | CANCELLED => "CANCELLED" | DISPUTED => "DISPUTED"
  end.
End BookingStatus.

(** Modelled from the spec: the Prisma enum [PaymentStatus] (schema file
    absent; the payment service names [PENDING], [HELD_IN_ESCROW],
    [RELEASED] and [FAILED]). *)
Module PaymentStatus.
Inductive t := PENDING | HELD_IN_ESCROW | RELEASED | REFUNDED | FAILED.

Definition eqb (a b : t) : bool :=
  match a, b with
  | PENDING, PENDING | HELD_IN_ESCROW, HELD_IN_ESCROW | RELEASED, RELEASED
  | REFUNDED, REFUNDED | FAILED, FAILED => true
  | _, _ => false
  end.

Definition to_string (s : t) : string :=
  match s with
  | PENDING => "PENDING" | HELD_IN_ESCROW => "HELD_IN_ESCROW"
  | RELEASED => "RELEASED" | REFUNDED => "REFUNDED" | FAILED => "FAILED"
  end.
End PaymentStatus.

(** Modelled from the spec: the Prisma enum [UserRole]; the provider query
    compares the column with ['PROVIDER']. *)
Module UserRole.
Inductive t := CUSTOMER | PROVIDER | ADMIN.

Definition eqb (a b : t) : bool :=
  match a, b with
  | CUSTOMER, CUSTOMER | PROVIDER, PROVIDER | ADMIN, ADMIN => true
  | _, _ => false
  end.
End UserRole.

(** A geography point, [ST_MakePoint(lng, lat)]. *)
Record GeoPoint := { gp_lng : Q; gp_lat : Q }.

(** A row of [User]; the table is keyed by [id]. *)
Record User := {
  user_role : UserRole.t;
  user_isActive : bool;
  user_phoneNumber : string
}.

Record Profile := {
  profile_fullName : string;
  profile_location : option GeoPoint;
  profile_emergencyName : option string;
  profile_emergencyPhone : option string
}.

Record ProviderSkill := {
  ps_providerId : string;
  ps_serviceCategoryId : string;
  ps_isVerified : bool;
  ps_skillTrustScore : Q;
  ps_yearsExperience : Z
}.

Record ServiceCategory := {
  sc_id : string;
  sc_name : string;
  sc_nameEn : string;
  sc_isActive : bool
}.

Record Booking := {
  booking_id : string;
  booking_customerId : string;
  booking_providerId : option string;
  booking_serviceCategoryId : string;
  booking_status : BookingStatus.t;
  booking_paymentStatus : PaymentStatus.t;
  booking_careRecipientName : string;
  booking_locationLat : Q;
  booking_locationLng : Q;
  booking_locationAddress : option string;
  booking_scheduledDate : string;
  booking_notes : option string;
  booking_cancellationReason : option string;
  booking_createdAt : string
}.

(** The flat objects handed to [JSON.stringify] in audit entries.  A
    number is kept as the decimal text it was parsed from. *)
Inductive JsonValue :=
| JString (s : string)
| JNumber (text : string)
| JBool (b : bool).

Definition Json : Type := list (string * JsonValue).

Record AuditLog := {
  audit_userId : option string;
  audit_action : string;
  audit_entityType : string;
  audit_entityId : string;
  audit_oldValues : option Json;
  audit_newValues : option Json;
  audit_reason : option string
}.

(** The database behind the Prisma client.  [profiles] is keyed by the
    user id (one profile per user), [serviceCategories] by slug.
    [db_postgis] tells whether the PostGIS query of the matcher can be
    executed at all (extension loaded, index reachable). *)
Record DB := {
  users : gmap string User;
  profiles : gmap string Profile;
  serviceCategories : gmap string ServiceCategory;
  providerSkills : list ProviderSkill;
  bookings : gmap string Booking;
  auditLog : list AuditLog;
  db_postgis : bool
}.

(** ** Errors *)

Module ErrorCode.
Inductive t :=
| VALIDATION_ERROR | INVALID_INPUT | MISSING_REQUIRED_FIELD | INVALID_COORDINATES
| INVALID_DATE_FORMAT
| CUSTOMER_NOT_FOUND | PROVIDER_NOT_FOUND | SERVICE_CATEGORY_NOT_FOUND | BOOKING_NOT_FOUND
| DUPLICATE_BOOKING | PROVIDER_UNAVAILABLE
| UNAUTHORIZED | FORBIDDEN | INVALID_TOKEN
| INTERNAL_SERVER_ERROR | DATABASE_ERROR | GEOSPATIAL_QUERY_ERROR.
End ErrorCode.

(** The subclasses of [AppError] the services construct (the [details]
    object of an error is left out). *)
Inductive AppErrorClass :=
| AppError_base | CustomerNotFoundError | ServiceCategoryNotFoundError
| DatabaseError | GeospatialQueryError.

Record AppError := {
  err_class : AppErrorClass;
  err_message : string;
  err_statusCode : Z;
  err_errorCode : ErrorCode.t;
  err_isOperational : bool
}.

(** What a service can throw: a plain [Error], a [TypeError] of the
    runtime, a Prisma client error (by its code), or an [AppError]. *)
Inductive Exn :=
| JsError (message : string)
| JsTypeError (message : string)
| PrismaError (code : string)
| AppErr (e : AppError).

(** [error instanceof AppError] *)
Definition instanceof_AppError (e : Exn) : bool :=
  match e with AppErr _ => true | _ => false end.

(** ** The monad of a service call: database state and exceptions *)

Definition M (A : Type) : Type := DB -> (Exn + A) * DB.

Definition ret {A} (a : A) : M A := fun db => (inr a, db).

Definition throw {A} (e : Exn) : M A := fun db => (inl e, db).

Definition bind {A B} (c : M A) (k : A -> M B) : M B :=
  fun db =>
    match c db with
    | (inl e, db') => (inl e, db')
    | (inr a, db') => k a db'
    end.

(** [try { c } catch (error) { h error }] *)
Definition try_catch {A} (c : M A) (h : Exn -> M A) : M A :=
  fun db =>
    match c db with
    | (inl e, db') => h e db'
    | (inr a, db') => (inr a, db')
    end.

Definition get_db : M DB := fun db => (inr db, db).

Definition modify_db (f : DB -> DB) : M unit := fun db => (inr tt, f db).

Notation "'let*' x ':=' c 'in' k" := (bind c (fun x => k))
  (at level 10, x pattern, c at level 100, k at level 200).
Notation "c ';;' k" := (bind c (fun _ => k))
  (at level 100, k at level 200, right associativity).

Definition set_bookings (f : gmap string Booking -> gmap string Booking) (db : DB) : DB :=
  {| users := users db; profiles := profiles db;
     serviceCategories := serviceCategories db; providerSkills := providerSkills db;
     bookings := f (bookings db); auditLog := auditLog db; db_postgis := db_postgis db |}.

Definition add_audit (a : AuditLog) (db : DB) : DB :=
  {| users := users db; profiles := profiles db;
     serviceCategories := serviceCategories db; providerSkills := providerSkills db;
     bookings := bookings db; auditLog := auditLog db ++ [a]; db_postgis := db_postgis db |}.

(** [prisma.booking.findUnique({ where: { id } })] *)
Definition booking_findUnique (id : string) : M (option Booking) :=
  fun db => (inr (bookings db !! id), db).

(** [prisma.booking.update({ where: { id }, data })]: the client throws
    its record-not-found error (P2025) when no row has that id. *)
Definition booking_update (id : string) (data : Booking -> Booking) : M Booking :=
  fun db =>
    match bookings db !! id with
    | Some b => (inr (data b), set_bookings (insert id (data b)) db)
    | None => (inl (PrismaError "P2025"), db)
    end.

(** [prisma.booking.create({ data })]: [b] carries the generated id; a
    clash on the primary key is the client's unique-constraint error. *)
Definition booking_create (b : Booking) : M Booking :=
  fun db =>
    match bookings db !! booking_id b with
    | Some _ => (inl (PrismaError "P2002"), db)
    | None => (inr b, set_bookings (insert (booking_id b) b) db)
    end.

(** [prisma.auditLog.create({ data })] *)
Definition auditLog_create (a : AuditLog) : M unit := modify_db (add_audit a).

Definition with_paymentStatus (p : PaymentStatus.t) (b : Booking) : Booking :=
  {| booking_id := booking_id b; booking_customerId := booking_customerId b;
     booking_providerId := booking_providerId b;
     booking_serviceCategoryId := booking_serviceCategoryId b;
     booking_status := booking_status b; booking_paymentStatus := p;
     booking_careRecipientName := booking_careRecipientName b;
     booking_locationLat := booking_locationLat b;
     booking_locationLng := booking_locationLng b;
     booking_locationAddress := booking_locationAddress b;
     booking_scheduledDate := booking_scheduledDate b;
     booking_notes := booking_notes b;
     booking_cancellationReason := booking_cancellationReason b;
     booking_createdAt := booking_createdAt b |}.

Definition with_status_reason (s : BookingStatus.t) (r : option string) (b : Booking) : Booking :=
  {| booking_id := booking_id b; booking_customerId := booking_customerId b;
     booking_providerId := booking_providerId b;
     booking_serviceCategoryId := booking_serviceCategoryId b;
     booking_status := s; booking_paymentStatus := booking_paymentStatus b;
     booking_careRecipientName := booking_careRecipientName b;
     booking_locationLat := booking_locationLat b;
     booking_locationLng := booking_locationLng b;
     booking_locationAddress := booking_locationAddress b;
     booking_scheduledDate := booking_scheduledDate b;
     booking_notes := booking_notes b;
     booking_cancellationReason := r;
     booking_createdAt := booking_createdAt b |}.

(** ** services/payhere.service.ts *)

Module PayHere.

(** [process.env] *)
Definition Env : Type := gmap string string.

Record Config := {
  checkoutUrl : string;
  apiUrl : string;
  merchantId : string;
  merchantSecret : string;
  appId : string;
  appSecret : string
}.

Definition PAYHERE_CONFIG_sandbox (env : Env) : Config :=
  {| checkoutUrl := "https://sandbox.payhere.lk/pay/checkout";
     apiUrl := "https://sandbox.payhere.lk/pay/v1";
     merchantId := JsString.or_default (env !! "PAYHERE_SANDBOX_MERCHANT_ID") "";
     merchantSecret := JsString.or_default (env !! "PAYHERE_SANDBOX_MERCHANT_SECRET") "";
     appId := JsString.or_default (env !! "PAYHERE_SANDBOX_APP_ID") "";
     appSecret := JsString.or_default (env !! "PAYHERE_SANDBOX_APP_SECRET") "" |}.

Definition PAYHERE_CONFIG_production (env : Env) : Config :=
  {| checkoutUrl := "https://www.payhere.lk/pay/checkout";
     apiUrl := "https://www.payhere.lk/pay/v1";
     merchantId := JsString.or_default (env !! "PAYHERE_MERCHANT_ID") "";
     merchantSecret := JsString.or_default (env !! "PAYHERE_MERCHANT_SECRET") "";
     appId := JsString.or_default (env !! "PAYHERE_APP_ID") "";
     appSecret := JsString.or_default (env !! "PAYHERE_APP_SECRET") "" |}.

Definition getPayHereConfig (env : Env) : Config :=
  let isProduction := bool_decide (env !! "NODE_ENV" = Some "production") in
  if isProduction then PAYHERE_CONFIG_production env else PAYHERE_CONFIG_sandbox env.

Definition PLATFORM_FEE_PERCENTAGE : float := 10%float.

Record PayHereNotification := {
  merchant_id : string;
  order_id : string;
  payment_id : string;
  payhere_amount : string;
  payhere_currency : string;
  status_code : string;
  status_message : string;
  method : string;
  card_holder_name : option string;
  card_no : option string;
  card_expiry : option string;
  md5sig : string;
  custom_1 : option string;
  custom_2 : option string
}.

(** ['SUCCESS' | 'FAILED' | 'PENDING' | 'CANCELLED'] *)
Inductive VerificationStatus := SUCCESS | FAILED | PENDING | CANCELLED.

Definition VerificationStatus_to_string (s : VerificationStatus) : string :=
  match s with
  | SUCCESS => "SUCCESS" | FAILED => "FAILED" | PENDING => "PENDING" | CANCELLED => "CANCELLED"
  end.

(** [amount] is [parseFloat(payhere_amount)]; the embedding keeps the text. *)
Record PaymentVerificationResult := {
  valid : bool;
  status : VerificationStatus;
  orderId : string;
  paymentId : string;
  amount : string;
  currency : string;
  pv_method : string;
  message : string
}.

(** Format: MD5(merchant_id + order_id + amount + currency + status_code
    + md5(merchant_secret)), every digest in upper-case hex. *)
Definition generateNotificationHash
  (merchantId orderId amount currency statusCode merchantSecret : string) : string :=
  let secretHash := JsString.toUpperCase (MD5.md5_hex merchantSecret) in
  let hashString := merchantId +:+ orderId +:+ amount +:+ currency +:+ statusCode +:+ secretHash in
  JsString.toUpperCase (MD5.md5_hex hashString).

(** Format: MD5(merchant_id + order_id + amount + currency
    + md5(merchant_secret)), every digest in upper-case hex. *)
Definition generatePayHereHash
  (merchantId orderId amount currency merchantSecret : string) : string :=
  let secretHash := JsString.toUpperCase (MD5.md5_hex merchantSecret) in
  let hashString := merchantId +:+ orderId +:+ amount +:+ currency +:+ secretHash in
  JsString.toUpperCase (MD5.md5_hex hashString).

(** [statusMap[statusCode] || 'FAILED'] on the five listed keys. *)
Definition mapStatusCode (statusCode : string) : VerificationStatus :=
  if String.eqb statusCode "2" then SUCCESS
  else if String.eqb statusCode "0" then PENDING
  else if String.eqb statusCode "-1" then CANCELLED
  else if String.eqb statusCode "-2" then FAILED
  else if String.eqb statusCode "-3" then FAILED
  else FAILED.

(** The signature recomputed from the notification and the merchant secret. *)
Definition expectedSig (env : Env) (notification : PayHereNotification) : string :=
  let config := getPayHereConfig env in
  generateNotificationHash (merchant_id notification) (order_id notification)
    (payhere_amount notification) (payhere_currency notification)
    (status_code notification) (merchantSecret config).

Definition verifyPaymentNotification (env : Env) (notification : PayHereNotification)
  : PaymentVerificationResult :=
  let expectedSig := expectedSig env notification in
  if negb (String.eqb (JsString.toUpperCase (md5sig notification))
                      (JsString.toUpperCase expectedSig)) then
    {| valid := false;
       status := FAILED;
       orderId := order_id notification;
       paymentId := payment_id notification;
       amount := payhere_amount notification;
       currency := payhere_currency notification;
       pv_method := method notification;
       message := "Invalid signature - possible spoofing attempt" |}
  else
    let status := mapStatusCode (status_code notification) in
    {| valid := true;
       status := status;
       orderId := order_id notification;
       paymentId := payment_id notification;
       amount := payhere_amount notification;
       currency := payhere_currency notification;
       pv_method := method notification;
       message := status_message notification |}.

(** [Math.round] on a binary64 number: the integer nearest to [x], a tie
    going towards plus infinity; the sum [x + 1/2] is taken exactly. *)
Definition Math_round (x : float) : float :=
  match Prim2SF x with
  | S754_finite sign m e =>
      if (0 <=? e)%Z then x
      else
        let num := (if sign then Z.neg m else Z.pos m) in
        let k := ((2 * num + 2 ^ (- e)) / 2 ^ (1 - e))%Z in
        if (k =? 0)%Z then (if sign then (-0)%float else 0%float)
        else if (k <? 0)%Z then (- (PrimFloat.of_uint63 (Uint63.of_Z (- k))))%float
        else PrimFloat.of_uint63 (Uint63.of_Z k)
  | _ => x
  end.

Record PaymentBreakdown := {
  totalAmount : float;
  platformFee : float;
  providerPayout : float
}.

Definition calculatePaymentBreakdown (totalAmount : float) : PaymentBreakdown :=
  let platformFee :=
    (Math_round (totalAmount * (PLATFORM_FEE_PERCENTAGE / 100) * 100) / 100)%float in
  let providerPayout := (totalAmount - platformFee)%float in
  {| totalAmount := totalAmount;
     platformFee := platformFee;
     providerPayout := providerPayout |}.

Definition mapToPrismaPaymentStatus (status : VerificationStatus) : PaymentStatus.t :=
  match status with
  | SUCCESS => PaymentStatus.HELD_IN_ESCROW
  | FAILED => PaymentStatus.FAILED
  | CANCELLED => PaymentStatus.PENDING
  | _ => PaymentStatus.PENDING
  end.

Definition payment_audit (bookingId : string) (v : PaymentVerificationResult) : AuditLog :=
  {| audit_userId := None;
     audit_action := "PAYMENT_NOTIFICATION";
     audit_entityType := "Booking";
     audit_entityId := bookingId;
     audit_oldValues := None;
     audit_newValues :=
       Some [("paymentId", JString (paymentId v));
             ("status", JString (VerificationStatus_to_string (status v)));
             ("amount", JNumber (amount v));
             ("method", JString (pv_method v))];
     audit_reason :=
       Some ("PayHere payment " +:+ VerificationStatus_to_string (status v)
             +:+ ": " +:+ message v) |}.

Definition handlePaymentNotification (env : Env) (notification : PayHereNotification)
  : M unit :=
  let verification := verifyPaymentNotification env notification in
  if negb (valid verification) then
    throw (JsError "Invalid payment notification signature")
  else
    match custom_1 notification with
    | None => throw (JsError "Booking ID not found in notification custom params")
    | Some bookingId =>
        if negb (JsString.truthy bookingId) then
          throw (JsError "Booking ID not found in notification custom params")
        else
          let paymentStatus := mapToPrismaPaymentStatus (status verification) in
          booking_update bookingId (with_paymentStatus paymentStatus) ;;
          (match status verification with
           | SUCCESS =>
               booking_update bookingId (with_paymentStatus PaymentStatus.HELD_IN_ESCROW) ;;
               ret tt
           | _ => ret tt
           end) ;;
          auditLog_create (payment_audit bookingId verification)
    end.

Definition release_audit (now : string) (bookingId : string) : AuditLog :=
  {| audit_userId := None;
     audit_action := "PAYMENT_RELEASED";
     audit_entityType := "Booking";
     audit_entityId := bookingId;
     audit_oldValues := None;
     audit_newValues :=
       Some [("paymentStatus", JString (PaymentStatus.to_string PaymentStatus.RELEASED));
             ("releasedAt", JString now)];
     audit_reason := None |}.

(** [now] is [new Date().toISOString()] at the time of the call. *)
Definition releaseEscrowPayment (now : string) (bookingId : string) : M unit :=
  let* booking := booking_findUnique bookingId in
  match booking with
  | None => throw (JsError ("Booking not found: " +:+ bookingId))
  | Some booking =>
      if negb (PaymentStatus.eqb (booking_paymentStatus booking) PaymentStatus.HELD_IN_ESCROW)
      then
        throw (JsError ("Cannot release payment. Current status: "
                        +:+ PaymentStatus.to_string (booking_paymentStatus booking)))
      else
        booking_update bookingId (with_paymentStatus PaymentStatus.RELEASED) ;;
        auditLog_create (release_audit now bookingId)
  end.

End PayHere.

(** ** services/bookingMatch.service.ts *)

Module BookingMatch.
Local Open Scope Q_scope.

(** Search radius in meters (10km) *)
Definition SEARCH_RADIUS_METERS : Q := 10000.

(** Maximum number of providers to return *)
Definition MAX_PROVIDERS : nat := 50%nat.

Record BookingLocation := {
  lat : Q;
  lng : Q;
  address : option string
}.

Record CreateBookingMatchInput := {
  customerId : string;
  careRecipientName : string;
  serviceCategorySlug : string;
  location : BookingLocation;
  scheduledDate : string;
  notes : option string
}.

Record BookingResponse := {
  br_id : string;
  br_status : BookingStatus.t;
  br_careRecipientName : string;
  br_location : BookingLocation;
  br_scheduledDate : string;
  br_notes : option string;
  br_createdAt : string
}.

Record MatchedProvider := {
  providerId : string;
  fullName : string;
  trustScore : Q;
  yearsExperience : Z;
  distanceKm : Q
}.

(** Raw result from the PostGIS geospatial query *)
Record ProviderMatchRawResult := {
  provider_id : string;
  full_name : string;
  skill_trust_score : Q;
  years_experience : Z;
  distance_meters : Q
}.

Record BookingMatchResult := {
  booking : BookingResponse;
  matchedProviders : list MatchedProvider;
  totalMatches : nat
}.

(** [Math.round] on the rational a number denotes: [floor (x + 1/2)]. *)
Definition Math_round (x : Q) : Z := Qfloor (x + (1 # 2)).

(** [Math.round(x * 10) / 10] *)
Definition round1 (x : Q) : Q := inject_Z (Math_round (x * 10)) / 10.

(** [ORDER BY ps.skill_trust_score DESC, distance_meters ASC]: [a] may
    come before [b]. *)
Definition order_leb (a b : ProviderMatchRawResult) : bool :=
  if Qeq_bool (skill_trust_score a) (skill_trust_score b)
  then Qle_bool (distance_meters a) (distance_meters b)
  else Qle_bool (skill_trust_score b) (skill_trust_score a).

(** What the [ORDER BY] clause says of two consecutive rows. *)
Definition in_order (a b : ProviderMatchRawResult) : Prop :=
  skill_trust_score b < skill_trust_score a
  \/ (skill_trust_score a == skill_trust_score b
      /\ distance_meters a <= distance_meters b).

Fixpoint insert_sorted {A} (leb : A -> A -> bool) (x : A) (l : list A) : list A :=
  match l with
  | [] => [x]
  | y :: r => if leb x y then x :: l else y :: insert_sorted leb x r
  end.

(** [ORDER BY]: rows that compare equal stay in the order of the join. *)
Definition order_by {A} (leb : A -> A -> bool) (l : list A) : list A :=
  fold_right (insert_sorted leb) [] l.

Section Geography.

(** PostGIS [ST_Distance] on two geography points, in meters. *)
Variable ST_Distance : GeoPoint -> GeoPoint -> Q.

(** [ST_DWithin(g1, g2, d)]: the distance is at most [d]. *)
Definition ST_DWithin (g1 g2 : GeoPoint) (d : Q) : bool :=
  Qle_bool (ST_Distance g1 g2) d.

(** [FROM "User" u INNER JOIN "Profile" p ON p.user_id = u.id
     INNER JOIN "ProviderSkill" ps ON ps.provider_id = u.id] *)
Definition joined (db : DB) : list (string * User * Profile * ProviderSkill) :=
  flat_map
    (fun ku : string * User =>
       match profiles db !! fst ku with
       | Some p =>
           map (fun ps => (fst ku, snd ku, p, ps))
               (List.filter (fun ps => String.eqb (ps_providerId ps) (fst ku)) (providerSkills db))
       | None => []
       end)
    (map_to_list (users db)).

(** The [WHERE] clause and the [SELECT] list on one joined row. *)
Definition select_where (serviceCategoryId : string) (point : GeoPoint) (radiusMeters : Q)
  (row : string * User * Profile * ProviderSkill) : option ProviderMatchRawResult :=
  let '(uid, u, p, ps) := row in
  match profile_location p with
  | Some loc =>
      if UserRole.eqb (user_role u) UserRole.PROVIDER
         && user_isActive u
         && String.eqb (ps_serviceCategoryId ps) serviceCategoryId
         && ps_isVerified ps
         && ST_DWithin loc point radiusMeters
      then Some {| provider_id := uid;
                   full_name := profile_fullName p;
                   skill_trust_score := ps_skillTrustScore ps;
                   years_experience := ps_yearsExperience ps;
                   distance_meters := ST_Distance loc point |}
      else None
  | None => None
  end.

Definition selected (db : DB) (serviceCategoryId : string) (lat lng radiusMeters : Q)
  : list ProviderMatchRawResult :=
  omap (select_where serviceCategoryId {| gp_lng := lng; gp_lat := lat |} radiusMeters)
       (joined db).

(** The provider query as the database evaluates it. *)
Definition provider_query (db : DB) (serviceCategoryId : string) (lat lng radiusMeters : Q)
  (limit : nat) : list ProviderMatchRawResult :=
  firstn limit (order_by order_leb (selected db serviceCategoryId lat lng radiusMeters)).

(** The qualifying rows that [LIMIT] cuts off. *)
Definition rows_beyond_limit (db : DB) (serviceCategoryId : string) (lat lng radiusMeters : Q)
  (limit : nat) : list ProviderMatchRawResult :=
  skipn limit (order_by order_leb (selected db serviceCategoryId lat lng radiusMeters)).

(** [prisma.$queryRawUnsafe(query, ...)]: the client throws its raw-query
    error (P2010) when the database cannot run the statement. *)
Definition queryRawUnsafe (serviceCategoryId : string) (lat lng radiusMeters : Q)
  (limit : nat) : M (list ProviderMatchRawResult) :=
  fun db =>
    if db_postgis db
    then (inr (provider_query db serviceCategoryId lat lng radiusMeters limit), db)
    else (inl (PrismaError "P2010"), db).

Definition to_MatchedProvider (row : ProviderMatchRawResult) : MatchedProvider :=
  {| providerId := provider_id row;
     fullName := full_name row;
     trustScore := round1 (skill_trust_score row);
     yearsExperience := years_experience row;
     distanceKm := round1 (distance_meters row / 1000) |}.

Definition new_GeospatialQueryError (message : string) : Exn :=
  AppErr {| err_class := GeospatialQueryError;
            err_message := message;
            err_statusCode := 500%Z;
            err_errorCode := ErrorCode.GEOSPATIAL_QUERY_ERROR;
            err_isOperational := false |}.

Definition new_DatabaseError (message : string) : Exn :=
  AppErr {| err_class := DatabaseError;
            err_message := message;
            err_statusCode := 500%Z;
            err_errorCode := ErrorCode.DATABASE_ERROR;
            err_isOperational := false |}.

Definition new_CustomerNotFoundError (customerId : string) : Exn :=
  AppErr {| err_class := CustomerNotFoundError;
            err_message := "Customer not found with ID: " +:+ customerId;
            err_statusCode := 404%Z;
            err_errorCode := ErrorCode.CUSTOMER_NOT_FOUND;
            err_isOperational := true |}.

Definition new_ServiceCategoryNotFoundError (slug : string) : Exn :=
  AppErr {| err_class := ServiceCategoryNotFoundError;
            err_message := "Service category not found with slug: " +:+ slug;
            err_statusCode := 404%Z;
            err_errorCode := ErrorCode.SERVICE_CATEGORY_NOT_FOUND;
            err_isOperational := true |}.

Definition new_AppError (message : string) (statusCode : Z) (code : ErrorCode.t) : Exn :=
  AppErr {| err_class := AppError_base;
            err_message := message;
            err_statusCode := statusCode;
            err_errorCode := code;
            err_isOperational := true |}.

Definition findMatchingProviders (serviceCategoryId : string) (lat lng radiusMeters : Q)
  (limit : nat) : M (list MatchedProvider) :=
  try_catch
    (let* results := queryRawUnsafe serviceCategoryId lat lng radiusMeters limit in
     ret (map to_MatchedProvider results))
    (fun error =>
       throw (new_GeospatialQueryError "Failed to execute provider matching query")).

Definition formatBookingResponse (b : Booking) : BookingResponse :=
  {| br_id := booking_id b;
     br_status := booking_status b;
     br_careRecipientName := booking_careRecipientName b;
     br_location :=
       {| lat := booking_locationLat b;
          lng := booking_locationLng b;
          address := match booking_locationAddress b with
                     | Some a => if JsString.truthy a then Some a else None
                     | None => None
                     end |};
     br_scheduledDate := booking_scheduledDate b;
     br_notes := match booking_notes b with
                 | Some n => if JsString.truthy n then Some n else None
                 | None => None
                 end;
     br_createdAt := booking_createdAt b |}.

(** [data: { status, ...(providerId && { providerId }) }] *)
Definition with_status_provider (s : BookingStatus.t) (providerId : option string)
  (b : Booking) : Booking :=
  {| booking_id := booking_id b; booking_customerId := booking_customerId b;
     booking_providerId :=
       match providerId with
       | Some p => if JsString.truthy p then Some p else booking_providerId b
       | None => booking_providerId b
       end;
     booking_serviceCategoryId := booking_serviceCategoryId b;
     booking_status := s; booking_paymentStatus := booking_paymentStatus b;
     booking_careRecipientName := booking_careRecipientName b;
     booking_locationLat := booking_locationLat b;
     booking_locationLng := booking_locationLng b;
     booking_locationAddress := booking_locationAddress b;
     booking_scheduledDate := booking_scheduledDate b;
     booking_notes := booking_notes b;
     booking_cancellationReason := booking_cancellationReason b;
     booking_createdAt := booking_createdAt b |}.

Definition updateBookingStatus (bookingId : string) (status : BookingStatus.t)
  (providerId : option string) : M Booking :=
  booking_update bookingId (with_status_provider status providerId).

(** The row [prisma.booking.create] writes: [uuid] and [now] are the id
    and timestamp the database generates.
    Modelled from the spec: the column defaults of the absent schema (the
    payment status starts as [PENDING], no provider, no reason). *)
Definition new_booking (uuid now : string) (input : CreateBookingMatchInput)
  (serviceCategoryId : string) : Booking :=
  {| booking_id := uuid;
     booking_customerId := customerId input;
     booking_providerId := None;
     booking_serviceCategoryId := serviceCategoryId;
     booking_status := BookingStatus.PENDING;
     booking_paymentStatus := PaymentStatus.PENDING;
     booking_careRecipientName := careRecipientName input;
     booking_locationLat := lat (location input);
     booking_locationLng := lng (location input);
     booking_locationAddress := address (location input);
     booking_scheduledDate := scheduledDate input;
     booking_notes := match notes input with
                      | Some n => if JsString.truthy n then Some n else None
                      | None => None
                      end;
     booking_cancellationReason := None;
     booking_createdAt := now |}.

Definition createBookingAndFindMatches (uuid now : string) (input : CreateBookingMatchInput)
  : M BookingMatchResult :=
  try_catch
    (let* customer := (fun db => (inr (users db !! customerId input), db)) in
     match customer with
     | None => throw (new_CustomerNotFoundError (customerId input))
     | Some customer =>
         if negb (user_isActive customer) then
           throw (new_AppError "Customer account is inactive" 400%Z ErrorCode.CUSTOMER_NOT_FOUND)
         else
           let* serviceCategory :=
             (fun db => (inr (serviceCategories db !! serviceCategorySlug input), db)) in
           match serviceCategory with
           | None => throw (new_ServiceCategoryNotFoundError (serviceCategorySlug input))
           | Some serviceCategory =>
               if negb (sc_isActive serviceCategory) then
                 throw (new_AppError "Service category is currently inactive" 400%Z
                          ErrorCode.SERVICE_CATEGORY_NOT_FOUND)
               else
                 let* booking :=
                   booking_create (new_booking uuid now input (sc_id serviceCategory)) in
                 let* matchedProviders :=
                   findMatchingProviders (sc_id serviceCategory)
                     (lat (location input)) (lng (location input))
                     SEARCH_RADIUS_METERS MAX_PROVIDERS in
                 ret {| booking := formatBookingResponse booking;
                        matchedProviders := matchedProviders;
                        totalMatches := List.length matchedProviders |}
           end
     end)
    (fun error =>
       if instanceof_AppError error then throw error
       else throw (new_DatabaseError "Failed to create booking and find matches")).

End Geography.

End BookingMatch.

(** ** services/emergencyEscalation.service.ts *)

Module EmergencyEscalation.

(** Sri Lanka National Emergency Ambulance Number *)
Definition DEFAULT_EMERGENCY_NUMBER : string := "1990".

(** SMS Sender ID for emergency notifications *)
Definition SMS_SENDER_ID : string := "CareLink".

Inductive TriggeredBy := CUSTOMER | PROVIDER.

Definition TriggeredBy_to_string (t : TriggeredBy) : string :=
  match t with CUSTOMER => "CUSTOMER" | PROVIDER => "PROVIDER" end.

Record EmergencyEscalationInput := {
  shiftId : string;
  triggeredBy : TriggeredBy;
  triggeredByUserId : string;
  reason : option string;
  location : option GeoPoint
}.

Record EmergencyEscalationResult := {
  success : bool;
  emergencyNumber : string;
  shiftFrozen : bool;
  smsSent : bool;
  incidentReported : bool
}.

(** The booking with the relations the query includes; of the customer
    only the profile is read. *)
Record ShiftWithDetails := {
  shift_id : string;
  shift_status : BookingStatus.t;
  shift_locationAddress : option string;
  shift_careRecipientName : string;
  shift_customer_profile : option Profile
}.

Definition shift_findUnique (id : string) : M (option ShiftWithDetails) :=
  fun db =>
    (inr (match bookings db !! id with
          | Some b =>
              Some {| shift_id := booking_id b;
                      shift_status := booking_status b;
                      shift_locationAddress := booking_locationAddress b;
                      shift_careRecipientName := booking_careRecipientName b;
                      shift_customer_profile := profiles db !! booking_customerId b |}
          | None => None
          end), db).

(** Known hospital emergency numbers, in the order of the object literal. *)
Definition hospitalEmergencyNumbers : list (string * string) :=
  [("COLOMBO GENERAL HOSPITAL", "011-2691111");
   ("NATIONAL HOSPITAL", "011-2691111");
   ("ASIRI HOSPITAL", "011-4665500");
   ("NAWALOKA HOSPITAL", "011-5777777");
   ("DURDANS HOSPITAL", "011-2140000");
   ("LANKA HOSPITALS", "011-5530000")].

Fixpoint first_hospital (locationUpper : string) (table : list (string * string))
  : option string :=
  match table with
  | [] => None
  | (hospital, number) :: rest =>
      if JsString.includes locationUpper hospital then Some number
      else first_hospital locationUpper rest
  end.

(** Reading [toUpperCase] off a null address is a [TypeError]. *)
Definition determineEmergencyNumber (shift : ShiftWithDetails) : M string :=
  match shift_locationAddress shift with
  | None => throw (JsTypeError "Cannot read properties of null (reading 'toUpperCase')")
  | Some locationAddress =>
      let locationUpper := JsString.toUpperCase locationAddress in
      match first_hospital locationUpper hospitalEmergencyNumbers with
      | Some number => ret number
      | None => ret DEFAULT_EMERGENCY_NUMBER
      end
  end.

Section Sms.

(** [sendSMS({ to, message, senderId })] of the SMS collaborator: [true]
    when the promise resolves, [false] when it rejects. *)
Variable sendSMS : string -> string -> string -> bool.

Definition sendEmergencySMS (shift : ShiftWithDetails) (triggeredBy : string)
  (emergencyNumber : string) : bool :=
  match shift_customer_profile shift with
  | None => false
  | Some profile =>
      match profile_emergencyPhone profile with
      | None => false
      | Some emergencyContact =>
          if negb (JsString.truthy emergencyContact) then false
          else
            let customerName :=
              JsString.or_default (Some (profile_fullName profile)) "A CareLink customer" in
            let careRecipientName :=
              JsString.or_default (Some (shift_careRecipientName shift)) "care recipient" in
            let triggeredByText :=
              if String.eqb triggeredBy "CUSTOMER" then "the customer"
              else "the care companion" in
            let message :=
              "CareLink EMERGENCY ALERT: " +:+ customerName
              +:+ " has triggered an emergency for " +:+ careRecipientName
              +:+ " at " +:+ default "null" (shift_locationAddress shift)
              +:+ ". Emergency services contacted: " +:+ emergencyNumber
              +:+ ". This was triggered by " +:+ triggeredByText
              +:+ ". Please check immediately. - CareLink" in
            sendSMS emergencyContact message SMS_SENDER_ID
      end
  end.

Definition escalation_audit (input : EmergencyEscalationInput) (shift : ShiftWithDetails)
  (emergencyNumber : string) (smsSent : bool) : AuditLog :=
  {| audit_userId := Some (triggeredByUserId input);
     audit_action := "EMERGENCY_ESCALATION";
     audit_entityType := "Booking";
     audit_entityId := shiftId input;
     audit_oldValues := Some [("status", JString (BookingStatus.to_string (shift_status shift)))];
     audit_newValues :=
       Some [("status", JString (BookingStatus.to_string BookingStatus.DISPUTED));
             ("incidentReported", JBool true);
             ("triggeredBy", JString (TriggeredBy_to_string (triggeredBy input)));
             ("emergencyNumber", JString emergencyNumber);
             ("smsSent", JBool smsSent)];
     audit_reason := Some (JsString.or_default (reason input) "Emergency button pressed") |}.

Definition escalatable (s : BookingStatus.t) : bool :=
  existsb (BookingStatus.eqb s)
    [BookingStatus.IN_PROGRESS; BookingStatus.MATCHED; BookingStatus.CONFIRMED].

Definition has_emergencyPhone (shift : ShiftWithDetails) : bool :=
  match shift_customer_profile shift with
  | Some profile =>
      match profile_emergencyPhone profile with
      | Some phone => JsString.truthy phone
      | None => false
      end
  | None => false
  end.

Definition escalateEmergency (input : EmergencyEscalationInput)
  : M EmergencyEscalationResult :=
  try_catch
    (let* shift := shift_findUnique (shiftId input) in
     match shift with
     | None => throw (JsError ("Shift not found: " +:+ shiftId input))
     | Some shift =>
         if negb (escalatable (shift_status shift)) then
           throw (JsError ("Cannot escalate emergency for shift in status: "
                           +:+ BookingStatus.to_string (shift_status shift)))
         else
           booking_update (shiftId input)
             (with_status_reason BookingStatus.DISPUTED
                (Some ("EMERGENCY_ESCALATION: Triggered by "
                       +:+ TriggeredBy_to_string (triggeredBy input)
                       +:+ ". Reason: "
                       +:+ JsString.or_default (reason input) "Not specified"))) ;;
           let* emergencyNumber := determineEmergencyNumber shift in
           let smsSent :=
             if has_emergencyPhone shift
             then sendEmergencySMS shift (TriggeredBy_to_string (triggeredBy input))
                    emergencyNumber
             else false in
           auditLog_create (escalation_audit input shift emergencyNumber smsSent) ;;
           ret {| success := true;
                  emergencyNumber := emergencyNumber;
                  shiftFrozen := true;
                  smsSent := smsSent;
                  incidentReported := true |}
     end)
    (fun error => throw error).

End Sms.

End EmergencyEscalation.

(** ** controllers and middleware/errorHandler.middleware.ts *)

Module Controllers.

(** The [error] object of a failure body; [details] and the development
    stack trace are left out. *)
Record ErrorBody := {
  code : string;
  message : string
}.

(** What a handler does with a request: answer with a success body,
    answer with a failure body, or hand the error to [next]. *)
Inductive Reply (D : Type) :=
| Success (status : Z) (data : D)
| Failure (status : Z) (error : ErrorBody)
| Next (e : Exn).
Arguments Success {D} status data.
Arguments Failure {D} status error.
Arguments Next {D} e.

(** The string value of an error code. *)
Definition ErrorCode_to_string (c : ErrorCode.t) : string :=
  match c with
  | ErrorCode.VALIDATION_ERROR => "VALIDATION_ERROR"
  | ErrorCode.INVALID_INPUT => "INVALID_INPUT"
  | ErrorCode.MISSING_REQUIRED_FIELD => "MISSING_REQUIRED_FIELD"
  | ErrorCode.INVALID_COORDINATES => "INVALID_COORDINATES"
  | ErrorCode.INVALID_DATE_FORMAT => "INVALID_DATE_FORMAT"
  | ErrorCode.CUSTOMER_NOT_FOUND => "CUSTOMER_NOT_FOUND"
  | ErrorCode.PROVIDER_NOT_FOUND => "PROVIDER_NOT_FOUND"
  | ErrorCode.SERVICE_CATEGORY_NOT_FOUND => "SERVICE_CATEGORY_NOT_FOUND"
  | ErrorCode.BOOKING_NOT_FOUND => "BOOKING_NOT_FOUND"
  | ErrorCode.DUPLICATE_BOOKING => "DUPLICATE_BOOKING"
  | ErrorCode.PROVIDER_UNAVAILABLE => "PROVIDER_UNAVAILABLE"
  | ErrorCode.UNAUTHORIZED => "UNAUTHORIZED"
  | ErrorCode.FORBIDDEN => "FORBIDDEN"
  | ErrorCode.INVALID_TOKEN => "INVALID_TOKEN"
  | ErrorCode.INTERNAL_SERVER_ERROR => "INTERNAL_SERVER_ERROR"
  | ErrorCode.DATABASE_ERROR => "DATABASE_ERROR"
  | ErrorCode.GEOSPATIAL_QUERY_ERROR => "GEOSPATIAL_QUERY_ERROR"
  end.

(** [AppError.prototype.toJSON] *)
Definition toJSON (e : AppError) : ErrorBody :=
  {| code := ErrorCode_to_string (err_errorCode e); message := err_message e |}.

Section Handlers.

(** The message a Prisma client error of a given code carries. *)
Variable prisma_message : string -> string.

(** [error.message] *)
Definition message_of (e : Exn) : string :=
  match e with
  | JsError m => m
  | JsTypeError m => m
  | PrismaError c => prisma_message c
  | AppErr a => err_message a
  end.

(** [globalErrorHandler], on the errors the services throw. *)
Definition globalErrorHandler {D} (err : Exn) : Reply D :=
  match err with
  | AppErr a =>
      Failure (err_statusCode a)
        {| code := ErrorCode_to_string (err_errorCode a); message := err_message a |}
  | PrismaError c =>
      if String.eqb c "P2002" then
        Failure 409 {| code := ErrorCode_to_string ErrorCode.DUPLICATE_BOOKING;
                       message := "A record with this information already exists" |}
      else if String.eqb c "P2025" then
        Failure 404 {| code := ErrorCode_to_string ErrorCode.BOOKING_NOT_FOUND;
                       message := "Record not found" |}
      else if String.eqb c "P2003" then
        Failure 400 {| code := ErrorCode_to_string ErrorCode.INVALID_INPUT;
                       message := "Referenced record does not exist" |}
      else
        Failure 500 {| code := ErrorCode_to_string ErrorCode.DATABASE_ERROR;
                       message := "Database operation failed" |}
  | JsError m | JsTypeError m =>
      Failure 500 {| code := ErrorCode_to_string ErrorCode.INTERNAL_SERVER_ERROR;
                     message := m |}
  end.

(** *** POST /api/v1/bookings/match *)

(** What [validateCreateBookingMatch(req.body)] comes to: the validated
    input, a [ZodError], or another error thrown. *)
Inductive Validation :=
| Validated (input : BookingMatch.CreateBookingMatchInput)
| ZodError
| Thrown (e : Exn).

Variable ST_Distance : GeoPoint -> GeoPoint -> Q.

Definition createBookingMatchHandler (uuid now : string) (validation : Validation)
  : DB -> Reply BookingMatch.BookingMatchResult * DB :=
  fun db =>
    let on_error (error : Exn) (db' : DB) : Reply BookingMatch.BookingMatchResult * DB :=
      match error with
      | AppErr a => (Failure (err_statusCode a) (toJSON a), db')
      | _ => (Next error, db')
      end in
    match validation with
    | ZodError =>
        (Failure 400 {| code := ErrorCode_to_string ErrorCode.VALIDATION_ERROR;
                        message := "Request validation failed" |}, db)
    | Thrown error => on_error error db
    | Validated validatedInput =>
        match BookingMatch.createBookingAndFindMatches ST_Distance uuid now validatedInput db
        with
        | (inr result, db') => (Success 201 result, db')
        | (inl error, db') => on_error error db'
        end
    end.

(** *** POST /api/v1/shifts/:id/escalate *)

(** The request, with a body of the right JSON types. *)
Record EscalateRequest := {
  req_userId : option string;
  req_shiftId : string;
  body_triggeredBy : string;
  body_reason : option string;
  body_location : option GeoPoint
}.

(** [triggeredBy: z.enum(['CUSTOMER', 'PROVIDER'])] *)
Definition parse_triggeredBy (s : string) : option EmergencyEscalation.TriggeredBy :=
  if String.eqb s "CUSTOMER" then Some EmergencyEscalation.CUSTOMER
  else if String.eqb s "PROVIDER" then Some EmergencyEscalation.PROVIDER
  else None.

(** [lat: z.number().min(-90).max(90), lng: z.number().min(-180).max(180)] *)
Definition location_ok (l : option GeoPoint) : bool :=
  match l with
  | None => true
  | Some g =>
      Qle_bool (-90) (gp_lat g) && Qle_bool (gp_lat g) 90
      && Qle_bool (-180) (gp_lng g) && Qle_bool (gp_lng g) 180
  end.

Record EscalatedData := {
  data_message : string;
  data_emergencyNumber : string;
  data_shiftFrozen : bool;
  data_smsSentToEmergencyContact : bool;
  data_incidentReported : bool;
  data_instructions : string
}.

Variable sendSMS : string -> string -> string -> bool.

Definition escalateEmergencyHandler (req : EscalateRequest) : DB -> Reply EscalatedData * DB :=
  fun db =>
    match req_userId req with
    | None =>
        (Failure 401 {| code := "UNAUTHORIZED"; message := "Authentication required" |}, db)
    | Some userId =>
        if negb (JsString.truthy userId) then
          (Failure 401 {| code := "UNAUTHORIZED"; message := "Authentication required" |}, db)
        else
          match parse_triggeredBy (body_triggeredBy req), location_ok (body_location req) with
          | Some triggeredBy, true =>
              match
                EmergencyEscalation.escalateEmergency sendSMS
                  {| EmergencyEscalation.shiftId := req_shiftId req;
                     EmergencyEscalation.triggeredBy := triggeredBy;
                     EmergencyEscalation.triggeredByUserId := userId;
                     EmergencyEscalation.reason := body_reason req;
                     EmergencyEscalation.location := body_location req |} db
              with
              | (inr result, db') =>
                  (Success 200
                     {| data_message := "Emergency escalated successfully";
                        data_emergencyNumber := EmergencyEscalation.emergencyNumber result;
                        data_shiftFrozen := EmergencyEscalation.shiftFrozen result;
                        data_smsSentToEmergencyContact := EmergencyEscalation.smsSent result;
                        data_incidentReported := EmergencyEscalation.incidentReported result;
                        data_instructions :=
                          "Immediately call the emergency number provided. The emergency contact has been notified." |},
                   db')
              | (inl error, db') =>
                  match error with
                  | AppErr a => (Failure (err_statusCode a) (toJSON a), db')
                  | _ =>
                      if JsString.includes (message_of error) "not found" then
                        (Failure 404 {| code := "SHIFT_NOT_FOUND";
                                        message := message_of error |}, db')
                      else if JsString.includes (message_of error) "active state" then
                        (Failure 400 {| code := "INVALID_SHIFT_STATE";
                                        message := message_of error |}, db')
                      else (Next error, db')
                  end
              end
          | _, _ =>
              (Failure 400 {| code := "VALIDATION_ERROR"; message := "Invalid request body" |},
               db)
          end
    end.

End Handlers.

End Controllers.

(** ** Vocabulary for the escalation properties *)

Module EscalationFacts.
Import EmergencyEscalation.

(** The shift the escalation reads for booking [b]. *)
Definition shift_of (db : DB) (b : Booking) : ShiftWithDetails :=
  {| shift_id := booking_id b;
     shift_status := booking_status b;
     shift_locationAddress := booking_locationAddress b;
     shift_careRecipientName := booking_careRecipientName b;
     shift_customer_profile := profiles db !! booking_customerId b |}.

(** The number the lookup gives for an address. *)
Definition number_for (address : string) : string :=
  default DEFAULT_EMERGENCY_NUMBER
    (first_hospital (JsString.toUpperCase address) hospitalEmergencyNumbers).

(** The booking as the escalation freezes it. *)
Definition frozen (input : EmergencyEscalationInput) (b : Booking) : Booking :=
  with_status_reason BookingStatus.DISPUTED
    (Some ("EMERGENCY_ESCALATION: Triggered by "
           +:+ TriggeredBy_to_string (triggeredBy input)
           +:+ ". Reason: "
           +:+ JsString.or_default (reason input) "Not specified")) b.

(** Whether the contact was notified, given the gateway. *)
Definition sms_outcome (sendSMS : string -> string -> string -> bool)
  (input : EmergencyEscalationInput) (shift : ShiftWithDetails) (number : string) : bool :=
  if has_emergencyPhone shift
  then sendEmergencySMS sendSMS shift (TriggeredBy_to_string (triggeredBy input)) number
  else false.

End EscalationFacts.

(** ** The migration's [calculate_provider_trust_score] *)

Module TrustScore.
Local Open Scope Q_scope.

(** Modelled from the spec: the columns of the four tables the function
    reads (their [CREATE TABLE] statements are not in the sources).  Of the
    four, [bookings] is the one with a column called [provider_id]: the
    migration indexes [bookings(provider_id, status, scheduled_date)]. *)
Record booking_row := { provider_id : option string; status : string }.
Record review_row := { target_id : string; rating : Q }.
Record verification_doc_row := { doc_user_id : string; doc_status : string }.
Record profile_row := { profile_user_id : string; response_time_min : option Q }.

Record Tables := {
  bookings : list booking_row;
  reviews : list review_row;
  verification_docs : list verification_doc_row;
  profiles : list profile_row
}.

(** How PL/pgSQL resolves a name that is both a function parameter and a
    column of the queried table ([plpgsql.variable_conflict]); the server
    default is [error]. *)
Inductive variable_conflict := conflict_error | use_variable | use_column.

(** The call raises, or returns a (possibly NULL) double precision. *)
Inductive outcome :=
| Raise (message : string)
| Return (value : option Q).

Definition COUNT {A} (rows : list A) : Z := Z.of_nat (List.length rows).

Definition NULLIF (n : Z) (z : Z) : option Z := if (n =? z)%Z then None else Some n.

Definition COALESCE (o : option Q) (d : Q) : Q := default d o.

Definition AVG (xs : list Q) : option Q :=
  match xs with
  | [] => None
  | _ => Some (fold_right Qplus 0 xs / inject_Z (COUNT xs))
  end.

(** [WHERE provider_id = provider_id] on a row of [bookings]: with
    [use_variable] both sides are the (non-null) argument, with
    [use_column] both are the row's column, and NULL = NULL is not true. *)
Definition bookings_where (vc : variable_conflict) (arg : string) (row : booking_row) : bool :=
  match vc with
  | use_column => match provider_id row with Some _ => true | None => false end
  | _ => true
  end.

Definition completion_rate_of (rows : list booking_row) : Q :=
  COALESCE
    (match NULLIF (COUNT rows) 0 with
     | Some total =>
         Some (inject_Z (COUNT (List.filter (fun r => String.eqb (status r) "COMPLETED") rows))
               / inject_Z total)
     | None => None
     end) 0 * 100.

Definition avg_rating_of (rows : list review_row) : Q :=
  COALESCE (AVG (map rating rows)) 0 * 20.

Definition verification_score_of (rows : list verification_doc_row) : Q :=
  if (COUNT rows =? 0)%Z then 0
  else inject_Z (COUNT (List.filter (fun r => String.eqb (doc_status r) "VERIFIED") rows))
       / inject_Z (COUNT rows) * 100.

Definition response_score_case (response_time_min : option Q) : Q :=
  match response_time_min with
  | None => 50
  | Some m =>
      if Qle_bool m 15 then 100
      else if Qle_bool m 30 then 80
      else if Qle_bool m 60 then 60
      else 40
  end.

(** [SELECT ... INTO response_score FROM profiles WHERE user_id = provider_id]:
    the first matching row, NULL when there is none. *)
Definition response_score_of (rows : list profile_row) : option Q :=
  match rows with
  | [] => None
  | r :: _ => Some (response_score_case (response_time_min r))
  end.

Definition weighted (completion_rate avg_rating verification_score response_score : Q) : Q :=
  (completion_rate * (4 # 10)) + (avg_rating * (3 # 10))
  + (verification_score * (2 # 10)) + (response_score * (1 # 10)).

Definition calculate_provider_trust_score (vc : variable_conflict) (t : Tables)
  (provider_id : string) : outcome :=
  match vc with
  | conflict_error => Raise "column reference provider_id is ambiguous"
  | _ =>
      let completion_rate :=
        completion_rate_of (List.filter (bookings_where vc provider_id) (bookings t)) in
      let avg_rating :=
        avg_rating_of (List.filter (fun r => String.eqb (target_id r) provider_id) (reviews t)) in
      let verification_score :=
        verification_score_of
          (List.filter (fun r => String.eqb (doc_user_id r) provider_id) (verification_docs t)) in
      let response_score :=
        response_score_of
          (List.filter (fun r => String.eqb (profile_user_id r) provider_id) (profiles t)) in
      Return (match response_score with
              | Some response_score =>
                  Some (weighted completion_rate avg_rating verification_score response_score)
              | None => None
              end)
  end.

(** The outcome is a score equal to [q]. *)
Definition returns_score (o : outcome) (q : Q) : Prop :=
  match o with
  | Return (Some s) => s == q
  | _ => False
  end.

(** The score as the specification words it: the completion rate counts
    the bookings of the provider the score is for. *)
Definition spec_trust_score (t : Tables) (provider : string) : option Q :=
  let own := List.filter (fun r => bool_decide (provider_id r = Some provider)) (bookings t) in
  let completion_rate := completion_rate_of own in
  let avg_rating :=
    avg_rating_of (List.filter (fun r => String.eqb (target_id r) provider) (reviews t)) in
  let verification_score :=
    verification_score_of
      (List.filter (fun r => String.eqb (doc_user_id r) provider) (verification_docs t)) in
  match response_score_of
          (List.filter (fun r => String.eqb (profile_user_id r) provider) (profiles t)) with
  | Some response_score =>
      Some (weighted completion_rate avg_rating verification_score response_score)
  | None => None
  end.

End TrustScore.

(** The split of [total] adds up, and the fee is a tenth of it. *)
Definition split_is_exact (total : float) : bool :=
  PrimFloat.eqb
    (PayHere.platformFee (PayHere.calculatePaymentBreakdown total)
     + PayHere.providerPayout (PayHere.calculatePaymentBreakdown total)) total
  && PrimFloat.eqb (PayHere.platformFee (PayHere.calculatePaymentBreakdown total)) (total / 10).

(** ** Checking a property on a range of integers *)

(** [p] holds on [z], [z + 1], ..., [z + fuel - 1]. *)
Fixpoint holds_from (p : Z -> bool) (fuel : nat) (z : Z) : bool :=
  match fuel with
  | O => true
  | S f => p z && holds_from p f (z + 1)%Z
  end.

(** * Example data *)

Module Fixtures.

(** A sandbox environment whose merchant secret is ["secret"]. *)
Definition env0 : PayHere.Env := {[ "PAYHERE_SANDBOX_MERCHANT_SECRET" := "secret" ]}.

(** A booking a provider has confirmed and whose payment is pending. *)
Definition booking1 : Booking :=
  {| booking_id := "b1";
     booking_customerId := "c1";
     booking_providerId := Some "p1";
     booking_serviceCategoryId := "cat1";
     booking_status := BookingStatus.CONFIRMED;
     booking_paymentStatus := PaymentStatus.PENDING;
     booking_careRecipientName := "Amara";
     booking_locationLat := 6.9271;
     booking_locationLng := 79.8612;
     booking_locationAddress := Some "Ward 4, Asiri Hospital, Colombo";
     booking_scheduledDate := "2026-01-15T09:00:00.000Z";
     booking_notes := None;
     booking_cancellationReason := None;
     booking_createdAt := "2026-01-10T08:00:00.000Z" |}.

Definition customer1 : User :=
  {| user_role := UserRole.CUSTOMER; user_isActive := true; user_phoneNumber := "+94711111111" |}.

Definition customer1_profile : Profile :=
  {| profile_fullName := "Nimal Perera";
     profile_location := None;
     profile_emergencyName := Some "Kamala Perera";
     profile_emergencyPhone := Some "+94772222222" |}.

Definition category1 : ServiceCategory :=
  {| sc_id := "cat1"; sc_name := "Hospital Companion"; sc_nameEn := "Hospital Companion";
     sc_isActive := true |}.

Definition db0 : DB :=
  {| users := {[ "c1" := customer1 ]};
     profiles := {[ "c1" := customer1_profile ]};
     serviceCategories := {[ "hospital-companion" := category1 ]};
     providerSkills := [];
     bookings := {[ "b1" := booking1 ]};
     auditLog := [];
     db_postgis := true |}.

(** The gateway's confirmation of order ORD-123, correctly signed. *)
Definition notification0 : PayHere.PayHereNotification :=
  {| PayHere.merchant_id := "1211149";
     PayHere.order_id := "ORD-123";
     PayHere.payment_id := "320025071234";
     PayHere.payhere_amount := "1000.00";
     PayHere.payhere_currency := "LKR";
     PayHere.status_code := "2";
     PayHere.status_message := "Successfully completed the payment.";
     PayHere.method := "VISA";
     PayHere.card_holder_name := None;
     PayHere.card_no := None;
     PayHere.card_expiry := None;
     PayHere.md5sig := "A93BD37F66C347DB431F9060EA96630A";
     PayHere.custom_1 := Some "b1";
     PayHere.custom_2 := None |}.

(** The same notification with its signature spelled in lower case. *)
Definition notification_lower : PayHere.PayHereNotification :=
  {| PayHere.merchant_id := "1211149";
     PayHere.order_id := "ORD-123";
     PayHere.payment_id := "320025071234";
     PayHere.payhere_amount := "1000.00";
     PayHere.payhere_currency := "LKR";
     PayHere.status_code := "2";
     PayHere.status_message := "Successfully completed the payment.";
     PayHere.method := "VISA";
     PayHere.card_holder_name := None;
     PayHere.card_no := None;
     PayHere.card_expiry := None;
     PayHere.md5sig := "a93bd37f66c347db431f9060ea96630a";
     PayHere.custom_1 := Some "b1";
     PayHere.custom_2 := None |}.

(** The same notification with a signature that is not the expected one. *)
Definition notification_forged : PayHere.PayHereNotification :=
  {| PayHere.merchant_id := "1211149";
     PayHere.order_id := "ORD-123";
     PayHere.payment_id := "320025071234";
     PayHere.payhere_amount := "1000.00";
     PayHere.payhere_currency := "LKR";
     PayHere.status_code := "2";
     PayHere.status_message := "Successfully completed the payment.";
     PayHere.method := "VISA";
     PayHere.card_holder_name := None;
     PayHere.card_no := None;
     PayHere.card_expiry := None;
     PayHere.md5sig := "00000000000000000000000000000000";
     PayHere.custom_1 := Some "b1";
     PayHere.custom_2 := None |}.

(** The row of booking b1 in [db_released]. *)
Definition booking1_released : Booking :=
  with_paymentStatus PaymentStatus.RELEASED
    (BookingMatch.with_status_provider BookingStatus.COMPLETED None booking1).

(** The same database when the PostGIS query cannot be run. *)
Definition db_no_postgis : DB :=
  {| users := users db0; profiles := profiles db0;
     serviceCategories := serviceCategories db0; providerSkills := providerSkills db0;
     bookings := bookings db0; auditLog := auditLog db0; db_postgis := false |}.

Definition input1 : BookingMatch.CreateBookingMatchInput :=
  {| BookingMatch.customerId := "c1";
     BookingMatch.careRecipientName := "Sunil";
     BookingMatch.serviceCategorySlug := "hospital-companion";
     BookingMatch.location :=
       {| BookingMatch.lat := 6.9271; BookingMatch.lng := 79.8612;
          BookingMatch.address := Some "National Hospital, Colombo 10" |};
     BookingMatch.scheduledDate := "2026-02-01T09:00:00.000Z";
     BookingMatch.notes := None |}.

(** An SMS gateway that accepts every message. *)
Definition sms_up : string -> string -> string -> bool := fun _ _ _ => true.

Definition escalation1 : EmergencyEscalation.EmergencyEscalationInput :=
  {| EmergencyEscalation.shiftId := "b1";
     EmergencyEscalation.triggeredBy := EmergencyEscalation.PROVIDER;
     EmergencyEscalation.triggeredByUserId := "p1";
     EmergencyEscalation.reason := Some "Care recipient collapsed";
     EmergencyEscalation.location := None |}.

Definition escalation_unknown : EmergencyEscalation.EmergencyEscalationInput :=
  {| EmergencyEscalation.shiftId := "b404";
     EmergencyEscalation.triggeredBy := EmergencyEscalation.CUSTOMER;
     EmergencyEscalation.triggeredByUserId := "c1";
     EmergencyEscalation.reason := None;
     EmergencyEscalation.location := None |}.

(** A distance for the examples: points on one meridian, 100 km to the
    degree of latitude. *)
Definition meridian_distance (a b : GeoPoint) : Q :=
  Qabs (gp_lat a - gp_lat b) * 100000.

Definition provider_user : User :=
  {| user_role := UserRole.PROVIDER; user_isActive := true; user_phoneNumber := "+94770000000" |}.

Definition provider_profile (name : string) (lat : Q) : Profile :=
  {| profile_fullName := name;
     profile_location := Some {| gp_lng := 80; gp_lat := lat |};
     profile_emergencyName := None;
     profile_emergencyPhone := None |}.

Definition verified_skill (id : string) (trust : Q) : ProviderSkill :=
  {| ps_providerId := id; ps_serviceCategoryId := "cat1"; ps_isVerified := true;
     ps_skillTrustScore := trust; ps_yearsExperience := 3 |}.

(** A database of verified, active providers of category cat1, each given
    by its id, its latitude (on the meridian of 80 degrees) and its score. *)
Definition provider_db (l : list (string * Q * Q)) : DB :=
  {| users := list_to_map (map (fun x => (x.1.1, provider_user)) l);
     profiles := list_to_map (map (fun x => (x.1.1, provider_profile x.1.1 x.1.2)) l);
     serviceCategories := {[ "hospital-companion" := category1 ]};
     providerSkills := map (fun x => verified_skill x.1.1 x.2) l;
     bookings := ∅;
     auditLog := [];
     db_postgis := true |}.


(** Scenario 2 of the specification: A has score 80 at 8 km, B 85 at 9 km. *)
Definition db_scenario2 : DB := provider_db [("A", 7.08, 80); ("B", 7.09, 85)]%Q.



(** The candidates of scenario 2, as the matcher returns them. *)
Definition matches_scenario2 : list BookingMatch.MatchedProvider :=
  [ {| BookingMatch.providerId := "B"; BookingMatch.fullName := "B";
       BookingMatch.trustScore := 85.0; BookingMatch.yearsExperience := 3;
       BookingMatch.distanceKm := 9.0 |};
    {| BookingMatch.providerId := "A"; BookingMatch.fullName := "A";
       BookingMatch.trustScore := 80.0; BookingMatch.yearsExperience := 3;
       BookingMatch.distanceKm := 8.0 |} ].


(** Provider A has no booking, review or document; the one booking of
    the table, completed, is B's. *)
Definition tables_other_booking : TrustScore.Tables :=
  {| TrustScore.bookings :=
       [ {| TrustScore.provider_id := Some "B"; TrustScore.status := "COMPLETED" |} ];
     TrustScore.reviews := [];
     TrustScore.verification_docs := [];
     TrustScore.profiles :=
       [ {| TrustScore.profile_user_id := "A"; TrustScore.response_time_min := None |};
         {| TrustScore.profile_user_id := "B"; TrustScore.response_time_min := None |} ] |}.

(** Provider A with a perfect record and one review whose rating, 10, is
    off the 0 to 5 scale. *)
Definition tables_rating_10 : TrustScore.Tables :=
  {| TrustScore.bookings :=
       [ {| TrustScore.provider_id := Some "A"; TrustScore.status := "COMPLETED" |} ];
     TrustScore.reviews := [ {| TrustScore.target_id := "A"; TrustScore.rating := 10 |} ];
     TrustScore.verification_docs :=
       [ {| TrustScore.doc_user_id := "A"; TrustScore.doc_status := "VERIFIED" |} ];
     TrustScore.profiles :=
       [ {| TrustScore.profile_user_id := "A"; TrustScore.response_time_min := Some 10%Q |} ] |}.

(** The same provider with a rating of 4. *)
Definition tables_rating_4 : TrustScore.Tables :=
  {| TrustScore.bookings :=
       [ {| TrustScore.provider_id := Some "A"; TrustScore.status := "COMPLETED" |} ];
     TrustScore.reviews := [ {| TrustScore.target_id := "A"; TrustScore.rating := 4 |} ];
     TrustScore.verification_docs :=
       [ {| TrustScore.doc_user_id := "A"; TrustScore.doc_status := "VERIFIED" |} ];
     TrustScore.profiles :=
       [ {| TrustScore.profile_user_id := "A"; TrustScore.response_time_min := Some 10%Q |} ] |}.




(** The text the Prisma client puts in its errors, for the examples. *)
Definition prisma_text : string -> string :=
  fun code => "Invalid prisma invocation (" +:+ code +:+ ")".

(** The provider presses the emergency button for booking b1. *)
Definition escalate_request : Controllers.EscalateRequest :=
  {| Controllers.req_userId := Some "p1";
     Controllers.req_shiftId := "b1";
     Controllers.body_triggeredBy := "PROVIDER";
     Controllers.body_reason := Some "Care recipient collapsed";
     Controllers.body_location := None |}.

(** Provider A has bookings, reviews and documents but no profile row. *)
Definition tables_no_profile : TrustScore.Tables :=
  {| TrustScore.bookings :=
       [ {| TrustScore.provider_id := Some "A"; TrustScore.status := "COMPLETED" |} ];
     TrustScore.reviews := [ {| TrustScore.target_id := "A"; TrustScore.rating := 5 |} ];
     TrustScore.verification_docs :=
       [ {| TrustScore.doc_user_id := "A"; TrustScore.doc_status := "VERIFIED" |} ];
     TrustScore.profiles := [] |}.

(** An SMS gateway that rejects every message. *)
Definition sms_down : string -> string -> string -> bool := fun _ _ _ => false.

(** Booking b1 in progress, with no address on record. *)
Definition db_no_address : DB :=
  set_bookings
    (insert "b1"
       {| booking_id := "b1";
          booking_customerId := "c1";
          booking_providerId := Some "p1";
          booking_serviceCategoryId := "cat1";
          booking_status := BookingStatus.IN_PROGRESS;
          booking_paymentStatus := PaymentStatus.HELD_IN_ESCROW;
          booking_careRecipientName := "Amara";
          booking_locationLat := 6.9271;
          booking_locationLng := 79.8612;
          booking_locationAddress := None;
          booking_scheduledDate := "2026-01-15T09:00:00.000Z";
          booking_notes := None;
          booking_cancellationReason := None;
          booking_createdAt := "2026-01-10T08:00:00.000Z" |}) db0.

(** [Number(text)] for a whole amount of [n] rupees. *)
Definition rupees (n : Z) : float := PrimFloat.of_uint63 (Uint63.of_Z n).

(** [Number(text)] for an amount of [n] cents: the binary64 number nearest
    to [n / 100]. *)
Definition cents (n : Z) : float := (PrimFloat.of_uint63 (Uint63.of_Z n) / 100)%float.

(** The payment status a booking has in a database. *)
Definition paymentStatus_of (db : DB) (id : string) : option PaymentStatus.t :=
  booking_paymentStatus <$> bookings db !! id.

Definition status_of (db : DB) (id : string) : option BookingStatus.t :=
  booking_status <$> bookings db !! id.

(** The database once the confirmation has been handled. *)
Definition db_paid : DB := (PayHere.handlePaymentNotification env0 notification0 db0).2.

(** ... and once the provider has started the service. *)
Definition db_in_progress : DB :=
  (BookingMatch.updateBookingStatus "b1" BookingStatus.IN_PROGRESS None db_paid).2.

(** ... has completed it ... *)
Definition db_completed : DB :=
  (BookingMatch.updateBookingStatus "b1" BookingStatus.COMPLETED None db_in_progress).2.

(** ... and the escrow has been released. *)
Definition db_released : DB :=
  (PayHere.releaseEscrowPayment "2026-01-15T17:00:00.000Z" "b1" db_completed).2.

(** A correctly signed confirmation that names a booking nobody has. *)
Definition notification_unknown : PayHere.PayHereNotification :=
  {| PayHere.merchant_id := "1211149";
     PayHere.order_id := "ORD-123";
     PayHere.payment_id := "320025071234";
     PayHere.payhere_amount := "1000.00";
     PayHere.payhere_currency := "LKR";
     PayHere.status_code := "2";
     PayHere.status_message := "Successfully completed the payment.";
     PayHere.method := "VISA";
     PayHere.card_holder_name := None;
     PayHere.card_no := None;
     PayHere.card_expiry := None;
     PayHere.md5sig := "A93BD37F66C347DB431F9060EA96630A";
     PayHere.custom_1 := Some "b404";
     PayHere.custom_2 := None |}.

End Fixtures.

(** * Properties *)

(** ** MD5 test vectors (RFC 1321) *)

Example md5_empty : MD5.md5_hex "" = "d41d8cd98f00b204e9800998ecf8427e".
Proof. vm_compute. reflexivity. Qed.

Example md5_abc : MD5.md5_hex "abc" = "900150983cd24fb0d6963f7d28e17f72".
Proof. vm_compute. reflexivity. Qed.

Example md5_fox :
  MD5.md5_hex "The quick brown fox jumps over the lazy dog"
  = "9e107d9d372bb6826bd81d3542a419d6".
Proof. vm_compute. reflexivity. Qed.

Example md5_two_blocks :
  MD5.md5_hex "aaaaaaaaaaaaaaaaaaaaaaaaaaaaaaaaaaaaaaaaaaaaaaaaaaaaaaaa"
  = "3b0c8ac703f828b04c6c197006d17218".
Proof. vm_compute. reflexivity. Qed.

(** ** The Prisma client *)

Lemma booking_update_Some db id f b :
  bookings db !! id = Some b ->
  booking_update id f db = (inr (f b), set_bookings (insert id (f b)) db).
Proof. intros H. unfold booking_update. rewrite H. reflexivity. Qed.

Lemma booking_update_None db id f :
  bookings db !! id = None ->
  booking_update id f db = (inl (PrismaError "P2025"), db).
Proof. intros H. unfold booking_update. rewrite H. reflexivity. Qed.

Lemma set_bookings_bookings f db : bookings (set_bookings f db) = f (bookings db).
Proof. reflexivity. Qed.

Lemma set_bookings_twice f g db :
  set_bookings f (set_bookings g db) = set_bookings (fun m => f (g m)) db.
Proof. reflexivity. Qed.

Lemma with_paymentStatus_twice p q b :
  with_paymentStatus p (with_paymentStatus q b) = with_paymentStatus p b.
Proof. reflexivity. Qed.

Lemma with_paymentStatus_status p b :
  booking_status (with_paymentStatus p b) = booking_status b.
Proof. reflexivity. Qed.

(** ** Payment notifications *)

Section PaymentNotifications.
Import PayHere.
Variable env : Env.

Lemma toUpperCase_idempotent s :
  JsString.toUpperCase (JsString.toUpperCase s) = JsString.toUpperCase s.
Proof.
  induction s as [|c s IH]; simpl; [reflexivity|]. f_equal; [|exact IH].
  destruct c as [[] [] [] [] [] [] [] []]; vm_compute; reflexivity.
Qed.

Lemma verify_valid_iff n :
  valid (verifyPaymentNotification env n) = true <->
  JsString.toUpperCase (md5sig n) = JsString.toUpperCase (expectedSig env n).
Proof.
  unfold verifyPaymentNotification. cbv zeta.
  generalize (JsString.toUpperCase (expectedSig env n)).
  generalize (JsString.toUpperCase (md5sig n)). intros a b.
  destruct (String.eqb_spec a b) as [E|E]; cbn [negb valid].
  - split; auto.
  - split; [discriminate | intros; contradiction].
Qed.

Lemma handle_invalid n db :
  valid (verifyPaymentNotification env n) = false ->
  handlePaymentNotification env n db
  = (inl (JsError "Invalid payment notification signature"), db).
Proof. intros H. unfold handlePaymentNotification. rewrite H. reflexivity. Qed.

(** A verified SUCCESS notification for an existing booking puts the
    booking in escrow and appends one audit entry. *)
Lemma handle_success n db bid b :
  valid (verifyPaymentNotification env n) = true ->
  status (verifyPaymentNotification env n) = SUCCESS ->
  custom_1 n = Some bid ->
  JsString.truthy bid = true ->
  bookings db !! bid = Some b ->
  handlePaymentNotification env n db
  = (inr tt,
     add_audit (payment_audit bid (verifyPaymentNotification env n))
       (set_bookings (insert bid (with_paymentStatus PaymentStatus.HELD_IN_ESCROW b)) db)).
Proof.
  intros Hv Hs Hc Ht Hb. unfold handlePaymentNotification.
  rewrite Hv, Hc, Ht, Hs. simpl. unfold bind.
  rewrite (booking_update_Some _ _ _ _ Hb).
  erewrite booking_update_Some by (rewrite set_bookings_bookings; apply lookup_insert_eq).
  simpl. unfold auditLog_create, modify_db. f_equal.
  rewrite set_bookings_twice. unfold set_bookings, add_audit; simpl.
  rewrite insert_insert_eq. reflexivity.
Qed.

End PaymentNotifications.

Section PaymentClaims.
Import PayHere Fixtures.

(** C1, as amended.  Two deliveries in a row of one verified SUCCESS
    notification for an existing booking both succeed; after the first the
    booking is HELD_IN_ESCROW, and the second leaves every booking as it
    was.  The second delivery is processed like the first, not discarded:
    it writes the status again and appends one more audit entry.  (The
    handler computes and stores no fee split.) *)
Theorem repeated_notification_keeps_escrow
  (env : Env) (n : PayHereNotification) (db : DB) (bid : string) (b : Booking) :
  valid (verifyPaymentNotification env n) = true ->
  status (verifyPaymentNotification env n) = SUCCESS ->
  custom_1 n = Some bid ->
  JsString.truthy bid = true ->
  bookings db !! bid = Some b ->
  exists db1 db2,
    handlePaymentNotification env n db = (inr tt, db1)
    /\ handlePaymentNotification env n db1 = (inr tt, db2)
    /\ booking_paymentStatus <$> bookings db1 !! bid = Some PaymentStatus.HELD_IN_ESCROW
    /\ bookings db2 = bookings db1
    /\ auditLog db2 = auditLog db1 ++ [payment_audit bid (verifyPaymentNotification env n)].
Proof.
  intros Hv Hs Hc Ht Hb.
  pose proof (handle_success env n db bid b Hv Hs Hc Ht Hb) as H1.
  set (b' := with_paymentStatus PaymentStatus.HELD_IN_ESCROW b) in *.
  set (db1 := add_audit _ _) in H1.
  assert (Hb1 : bookings db1 !! bid = Some b') by apply lookup_insert_eq.
  pose proof (handle_success env n db1 bid b' Hv Hs Hc Ht Hb1) as H2.
  eexists; eexists. split; [exact H1|]. split; [exact H2|].
  split; [rewrite Hb1; reflexivity|]. split; [|reflexivity].
  unfold b'. rewrite with_paymentStatus_twice. fold b'. simpl.
  apply insert_id. exact Hb1.
Qed.

Lemma repeated_notification_keeps_escrow_witness :
  exists db1 db2,
    handlePaymentNotification env0 notification0 db0 = (inr tt, db1)
    /\ handlePaymentNotification env0 notification0 db1 = (inr tt, db2)
    /\ booking_paymentStatus <$> bookings db1 !! "b1" = Some PaymentStatus.HELD_IN_ESCROW
    /\ bookings db2 = bookings db1
    /\ auditLog db2
       = auditLog db1 ++ [payment_audit "b1" (verifyPaymentNotification env0 notification0)].
Proof.
  apply (repeated_notification_keeps_escrow env0 notification0 db0 "b1" booking1);
    vm_compute; reflexivity.
Defined.

(** C1, as stated, fails: the second delivery of the confirmation of
    ORD-123 is not discarded.  Delivered twice in a row it is logged twice;
    delivered again after the escrow was released, it takes the payment
    from RELEASED back to HELD_IN_ESCROW, so the ledger enters escrow a
    second time. *)
Lemma duplicate_notification_not_discarded :
  let first := handlePaymentNotification env0 notification0 db0 in
  let second := handlePaymentNotification env0 notification0 first.2 in
  let late := handlePaymentNotification env0 notification0 db_released in
  first.1 = inr tt
  /\ List.length (auditLog first.2) = 1%nat
  /\ second.1 = inr tt
  /\ List.length (auditLog second.2) = 2%nat
  /\ status_of db_released "b1" = Some BookingStatus.COMPLETED
  /\ paymentStatus_of db_released "b1" = Some PaymentStatus.RELEASED
  /\ late.1 = inr tt
  /\ paymentStatus_of late.2 "b1" = Some PaymentStatus.HELD_IN_ESCROW.
Proof. vm_compute. repeat split; reflexivity. Qed.

(** C9, as amended.  A notification whose signature differs from the
    recomputed one after both are upper-cased is marked invalid, and the
    handler throws on it before reading or writing the database: no
    payment status changes and nothing is logged. *)
Theorem signature_mismatch_rejected (env : Env) (n : PayHereNotification) (db : DB) :
  JsString.toUpperCase (md5sig n) <> JsString.toUpperCase (expectedSig env n) ->
  valid (verifyPaymentNotification env n) = false
  /\ status (verifyPaymentNotification env n) = FAILED
  /\ handlePaymentNotification env n db
     = (inl (JsError "Invalid payment notification signature"), db).
Proof.
  intros Hne.
  assert (Hv : valid (verifyPaymentNotification env n) = false).
  { destruct (valid (verifyPaymentNotification env n)) eqn:E; [|reflexivity].
    apply verify_valid_iff in E. contradiction. }
  split; [exact Hv|]. split; [|apply handle_invalid; exact Hv].
  revert Hv. unfold verifyPaymentNotification.
  destruct (negb _); simpl; [reflexivity | discriminate].
Qed.

Lemma signature_mismatch_rejected_witness :
  valid (verifyPaymentNotification env0 notification_forged) = false
  /\ status (verifyPaymentNotification env0 notification_forged) = FAILED
  /\ handlePaymentNotification env0 notification_forged db0
     = (inl (JsError "Invalid payment notification signature"), db0).
Proof.
  apply (signature_mismatch_rejected env0 notification_forged db0).
  vm_compute. discriminate.
Defined.

(** C9, as stated, fails: the comparison is not byte for byte.  The
    signature of [notification_lower] differs from the recomputed one in
    its bytes (it is the lower-case spelling), yet the notification is
    accepted and the booking's payment status is updated. *)
Lemma lowercase_signature_accepted :
  String.eqb (md5sig notification_lower) (expectedSig env0 notification_lower) = false
  /\ valid (verifyPaymentNotification env0 notification_lower) = true
  /\ (handlePaymentNotification env0 notification_lower db0).1 = inr tt
  /\ paymentStatus_of db0 "b1" = Some PaymentStatus.PENDING
  /\ paymentStatus_of (handlePaymentNotification env0 notification_lower db0).2 "b1"
     = Some PaymentStatus.HELD_IN_ESCROW.
Proof. vm_compute. repeat split; reflexivity. Qed.

(** C2: the release looks at the payment status only.  Whatever the
    lifecycle status of the booking, a payment held in escrow is released
    and the release is logged. *)
Theorem release_ignores_booking_status (now : string) (db : DB) (id : string) (b : Booking) :
  bookings db !! id = Some b ->
  booking_paymentStatus b = PaymentStatus.HELD_IN_ESCROW ->
  releaseEscrowPayment now id db
  = (inr tt,
     add_audit (release_audit now id)
       (set_bookings (insert id (with_paymentStatus PaymentStatus.RELEASED b)) db)).
Proof.
  intros Hb Hp. unfold releaseEscrowPayment, bind, booking_findUnique.
  rewrite Hb, Hp. simpl. unfold bind.
  rewrite (booking_update_Some _ _ _ _ Hb). reflexivity.
Qed.

(** C2 at the failing input: the booking is still IN_PROGRESS, its payment
    is held in escrow, and the release succeeds. *)
Lemma release_while_in_progress :
  status_of db_in_progress "b1" = Some BookingStatus.IN_PROGRESS
  /\ paymentStatus_of db_in_progress "b1" = Some PaymentStatus.HELD_IN_ESCROW
  /\ (releaseEscrowPayment "2026-01-15T12:00:00.000Z" "b1" db_in_progress).1 = inr tt
  /\ paymentStatus_of (releaseEscrowPayment "2026-01-15T12:00:00.000Z" "b1" db_in_progress).2 "b1"
     = Some PaymentStatus.RELEASED.
Proof. vm_compute. repeat split; reflexivity. Qed.

(** What the release does check: a payment that is not held in escrow is
    refused, and the database stays as it was. *)
Lemma release_requires_escrow (now : string) (db : DB) (id : string) (b : Booking) :
  bookings db !! id = Some b ->
  booking_paymentStatus b <> PaymentStatus.HELD_IN_ESCROW ->
  releaseEscrowPayment now id db
  = (inl (JsError ("Cannot release payment. Current status: "
                   +:+ PaymentStatus.to_string (booking_paymentStatus b))), db).
Proof.
  intros Hb Hp. unfold releaseEscrowPayment, bind, booking_findUnique.
  rewrite Hb. destruct (booking_paymentStatus b); simpl; try reflexivity.
  contradiction.
Qed.

(** C3 at failing inputs, in the binary64 arithmetic the code runs in.
    For a gross amount of 0.30 the fee is 0.03 and the payout 0.27, and
    their sum is not the gross amount; likewise 100.70 splits into 10.07
    and 90.63, whose sum is not 100.70.  Nor is there one rounding rule:
    the half cent of 0.05 is rounded up (fee 0.01), that of 0.35 down (fee
    0.03). *)
Theorem fee_split_drifts :
  platformFee (calculatePaymentBreakdown (cents 30)) = cents 3
  /\ providerPayout (calculatePaymentBreakdown (cents 30)) = cents 27
  /\ PrimFloat.eqb
       (platformFee (calculatePaymentBreakdown (cents 30))
        + providerPayout (calculatePaymentBreakdown (cents 30)))
       (cents 30) = false
  /\ platformFee (calculatePaymentBreakdown (cents 10070)) = cents 1007
  /\ providerPayout (calculatePaymentBreakdown (cents 10070)) = cents 9063
  /\ PrimFloat.eqb
       (platformFee (calculatePaymentBreakdown (cents 10070))
        + providerPayout (calculatePaymentBreakdown (cents 10070)))
       (cents 10070) = false
  /\ platformFee (calculatePaymentBreakdown (cents 5)) = cents 1
  /\ platformFee (calculatePaymentBreakdown (cents 35)) = cents 3.
Proof. vm_compute. repeat split; reflexivity. Qed.

(** The scenario of the specification: 1000.00 splits into 100.00 and 900.00. *)
Example fee_split_1000 :
  calculatePaymentBreakdown 1000
  = {| totalAmount := 1000; platformFee := 100; providerPayout := 900 |}.
Proof. vm_compute. reflexivity. Qed.

End PaymentClaims.

(** ** Emergency escalation *)

Section EscalationClaims.
Import EmergencyEscalation Fixtures.
Variable sendSMS : string -> string -> string -> bool.

Lemma escalatable_iff (s : BookingStatus.t) :
  escalatable s = true <->
  s = BookingStatus.MATCHED \/ s = BookingStatus.CONFIRMED \/ s = BookingStatus.IN_PROGRESS.
Proof.
  destruct s; vm_compute; split; intros H;
    try discriminate; try reflexivity; auto;
    destruct H as [H|[H|H]]; discriminate.
Qed.

Lemma escalate_not_found input db :
  bookings db !! shiftId input = None ->
  escalateEmergency sendSMS input db
  = (inl (JsError ("Shift not found: " +:+ shiftId input)), db).
Proof.
  intros H. unfold escalateEmergency, try_catch, bind, shift_findUnique.
  rewrite H. reflexivity.
Qed.

Lemma escalate_wrong_status input db b :
  bookings db !! shiftId input = Some b ->
  escalatable (booking_status b) = false ->
  escalateEmergency sendSMS input db
  = (inl (JsError ("Cannot escalate emergency for shift in status: "
                   +:+ BookingStatus.to_string (booking_status b))), db).
Proof.
  intros H Hs. unfold escalateEmergency, try_catch, bind, shift_findUnique.
  rewrite H. simpl. rewrite Hs. reflexivity.
Qed.

(** C4.  The call returns a result only for an existing booking whose
    status is MATCHED, CONFIRMED or IN_PROGRESS.  A missing booking and a
    booking in another status are refused with two different errors, and
    a refusal for PENDING, COMPLETED, CANCELLED or DISPUTED leaves the
    database untouched: no transition to DISPUTED, no audit entry. *)
Theorem escalateEmergency_guard (input : EmergencyEscalationInput) (db : DB) :
  (forall r db',
      escalateEmergency sendSMS input db = (inr r, db') ->
      exists b, bookings db !! shiftId input = Some b
                /\ (booking_status b = BookingStatus.MATCHED
                    \/ booking_status b = BookingStatus.CONFIRMED
                    \/ booking_status b = BookingStatus.IN_PROGRESS))
  /\ (bookings db !! shiftId input = None ->
      escalateEmergency sendSMS input db
      = (inl (JsError ("Shift not found: " +:+ shiftId input)), db))
  /\ (forall b,
      bookings db !! shiftId input = Some b ->
      booking_status b = BookingStatus.PENDING \/ booking_status b = BookingStatus.COMPLETED
      \/ booking_status b = BookingStatus.CANCELLED \/ booking_status b = BookingStatus.DISPUTED ->
      escalateEmergency sendSMS input db
      = (inl (JsError ("Cannot escalate emergency for shift in status: "
                       +:+ BookingStatus.to_string (booking_status b))), db))
  /\ (forall s : BookingStatus.t,
      "Shift not found: " +:+ shiftId input
      <> "Cannot escalate emergency for shift in status: " +:+ BookingStatus.to_string s).
Proof.
  split; [|split; [|split]].
  - intros r db' H.
    destruct (bookings db !! shiftId input) as [b|] eqn:Hb.
    + exists b. split; [reflexivity|]. apply escalatable_iff.
      destruct (escalatable (booking_status b)) eqn:He; [reflexivity|].
      rewrite (escalate_wrong_status input db b Hb He) in H. discriminate.
    + rewrite (escalate_not_found input db Hb) in H. discriminate.
  - apply escalate_not_found.
  - intros b Hb Hs. apply escalate_wrong_status; [exact Hb|].
    destruct Hs as [H|[H|[H|H]]]; rewrite H; reflexivity.
  - intros s. simpl. discriminate.
Qed.

End EscalationClaims.

Section EscalationWitness.
Import EmergencyEscalation Fixtures.

(** An escalation of the booking in progress succeeds: the booking is
    frozen as DISPUTED, the hospital desk number is returned, the contact
    is notified and one audit entry is written. *)
Example escalate_in_progress :
  (escalateEmergency sms_up escalation1 db_in_progress).1
  = inr {| success := true; emergencyNumber := "011-4665500"; shiftFrozen := true;
           smsSent := true; incidentReported := true |}
  /\ status_of (escalateEmergency sms_up escalation1 db_in_progress).2 "b1"
     = Some BookingStatus.DISPUTED
  /\ List.length (auditLog (escalateEmergency sms_up escalation1 db_in_progress).2)
     = S (List.length (auditLog db_in_progress)).
Proof. vm_compute. repeat split; reflexivity. Qed.

Lemma escalateEmergency_guard_witness :
  (exists b, bookings db_in_progress !! "b1" = Some b
             /\ (booking_status b = BookingStatus.MATCHED
                 \/ booking_status b = BookingStatus.CONFIRMED
                 \/ booking_status b = BookingStatus.IN_PROGRESS))
  /\ escalateEmergency sms_up escalation_unknown db0
     = (inl (JsError "Shift not found: b404"), db0)
  /\ escalateEmergency sms_up escalation1 db_released
     = (inl (JsError "Cannot escalate emergency for shift in status: COMPLETED"), db_released).
Proof.
  split; [|split].
  - eapply (proj1 (escalateEmergency_guard sms_up escalation1 db_in_progress)).
    vm_compute. reflexivity.
  - apply (proj1 (proj2 (escalateEmergency_guard sms_up escalation_unknown db0))).
    vm_compute. reflexivity.
  - apply (proj1 (proj2 (proj2 (escalateEmergency_guard sms_up escalation1 db_released)))
             booking1_released).
    + vm_compute. reflexivity.
    + right. left. reflexivity.
Defined.

End EscalationWitness.

(** ** Booking creation *)

Section CreationClaims.
Import BookingMatch Fixtures.
Variable ST_Distance : GeoPoint -> GeoPoint -> Q.

(** C10.  The booking is written, with status PENDING, before the
    provider query runs; when the query then fails, the call throws a
    GeospatialQueryError and the database keeps the new booking. *)
Theorem booking_survives_matching_failure
  (uuid now : string) (input : CreateBookingMatchInput) (db : DB)
  (customer : User) (category : ServiceCategory) :
  users db !! customerId input = Some customer ->
  user_isActive customer = true ->
  serviceCategories db !! serviceCategorySlug input = Some category ->
  sc_isActive category = true ->
  bookings db !! uuid = None ->
  db_postgis db = false ->
  createBookingAndFindMatches ST_Distance uuid now input db
  = (inl (new_GeospatialQueryError "Failed to execute provider matching query"),
     set_bookings (insert uuid (new_booking uuid now input (sc_id category))) db)
  /\ booking_status (new_booking uuid now input (sc_id category)) = BookingStatus.PENDING
  /\ bookings (createBookingAndFindMatches ST_Distance uuid now input db).2 !! uuid
     = Some (new_booking uuid now input (sc_id category)).
Proof.
  intros Hu Ha Hc Hca Hfresh Hgeo.
  assert (E : createBookingAndFindMatches ST_Distance uuid now input db
              = (inl (new_GeospatialQueryError "Failed to execute provider matching query"),
                 set_bookings (insert uuid (new_booking uuid now input (sc_id category))) db)).
  { unfold createBookingAndFindMatches, try_catch, bind.
    rewrite Hu, Ha. simpl. rewrite Hc, Hca. simpl.
    unfold booking_create. simpl. rewrite Hfresh.
    unfold findMatchingProviders, try_catch, bind, queryRawUnsafe. simpl.
    rewrite Hgeo. reflexivity. }
  split; [exact E|]. split; [reflexivity|].
  rewrite E. simpl. apply lookup_insert_eq.
Qed.

End CreationClaims.

(** ** Ordering of the provider query *)

Section Ordering.
Context {A : Type} (leb : A -> A -> bool).
Hypothesis leb_total : forall a b, leb a b = false -> leb b a = true.

Let le (a b : A) : Prop := leb a b = true.

Lemma insert_sorted_perm x l : Permutation (BookingMatch.insert_sorted leb x l) (x :: l).
Proof.
  induction l as [|y r IH]; simpl; [reflexivity|].
  destruct (leb x y); [reflexivity|].
  rewrite IH. apply perm_swap.
Qed.

Lemma order_by_perm l : Permutation (BookingMatch.order_by leb l) l.
Proof.
  induction l as [|x r IH]; simpl; [reflexivity|].
  rewrite insert_sorted_perm. constructor. exact IH.
Qed.

Lemma insert_sorted_HdRel a x l :
  le a x -> HdRel le a l -> HdRel le a (BookingMatch.insert_sorted leb x l).
Proof.
  intros Hax H. destruct l as [|y r]; simpl; [constructor; exact Hax|].
  destruct (leb x y); constructor; [exact Hax|].
  inversion H; assumption.
Qed.

Lemma insert_sorted_Sorted x l :
  Sorted le l -> Sorted le (BookingMatch.insert_sorted leb x l).
Proof.
  induction 1 as [|y r Hs IH Hhd]; simpl; [repeat constructor|].
  destruct (leb x y) eqn:E.
  - constructor; [constructor; assumption | constructor; exact E].
  - constructor; [exact IH|].
    apply insert_sorted_HdRel; [apply leb_total; exact E | exact Hhd].
Qed.

Lemma order_by_Sorted l : Sorted le (BookingMatch.order_by leb l).
Proof.
  induction l as [|x r IH]; simpl; [constructor|].
  apply insert_sorted_Sorted. exact IH.
Qed.

End Ordering.




Section MatcherArithmetic.
Import BookingMatch.
Local Open Scope Q_scope.

Lemma order_leb_total a b : order_leb a b = false -> order_leb b a = true.
Proof.
  unfold order_leb.
  destruct (Qeq_bool (skill_trust_score a) (skill_trust_score b)) eqn:E.
  - apply Qeq_bool_iff in E.
    assert (E' : Qeq_bool (skill_trust_score b) (skill_trust_score a) = true)
      by (apply Qeq_bool_iff; symmetry; exact E).
    rewrite E'. intros H. apply Qle_bool_iff.
    destruct (Qlt_le_dec (distance_meters a) (distance_meters b)) as [L|L]; [|exact L].
    apply Qlt_le_weak in L. apply Qle_bool_iff in L. congruence.
  - assert (E' : Qeq_bool (skill_trust_score b) (skill_trust_score a) = false).
    { destruct (Qeq_bool (skill_trust_score b) (skill_trust_score a)) eqn:F; [|reflexivity].
      apply Qeq_bool_iff in F. symmetry in F. apply Qeq_bool_iff in F. congruence. }
    rewrite E'. intros H. apply Qle_bool_iff.
    destruct (Qlt_le_dec (skill_trust_score a) (skill_trust_score b)) as [L|L].
    + apply Qlt_le_weak. exact L.
    + apply Qle_bool_iff in L. congruence.
Qed.

Lemma order_leb_in_order a b : order_leb a b = true -> in_order a b.
Proof.
  unfold order_leb, in_order.
  destruct (Qeq_bool (skill_trust_score a) (skill_trust_score b)) eqn:E; intros H.
  - right. split; [apply Qeq_bool_iff; exact E | apply Qle_bool_iff; exact H].
  - left. apply Qle_bool_iff in H. apply Qle_lt_or_eq in H. destruct H as [H|H]; [exact H|].
    symmetry in H. apply Qeq_bool_iff in H. congruence.
Qed.



End MatcherArithmetic.

(** ** The provider query *)

Section MatcherClaims.
Import BookingMatch.
Local Open Scope Q_scope.
Variable ST_Distance : GeoPoint -> GeoPoint -> Q.







Lemma provider_query_length db cat lat lng radius limit :
  (List.length (provider_query ST_Distance db cat lat lng radius limit) <= limit)%nat.
Proof. unfold provider_query. apply firstn_le_length. Qed.

Lemma findMatchingProviders_up db cat lat lng radius limit :
  db_postgis db = true ->
  findMatchingProviders ST_Distance cat lat lng radius limit db
  = (inr (map to_MatchedProvider (provider_query ST_Distance db cat lat lng radius limit)), db).
Proof.
  intros H. unfold findMatchingProviders, try_catch, bind, queryRawUnsafe.
  rewrite H. reflexivity.
Qed.

Lemma findMatchingProviders_down db cat lat lng radius limit :
  db_postgis db = false ->
  findMatchingProviders ST_Distance cat lat lng radius limit db
  = (inl (new_GeospatialQueryError "Failed to execute provider matching query"), db).
Proof.
  intros H. unfold findMatchingProviders, try_catch, bind, queryRawUnsafe.
  rewrite H. reflexivity.
Qed.

Lemma findMatchingProviders_inr db cat lat lng radius limit ms db' :
  findMatchingProviders ST_Distance cat lat lng radius limit db = (inr ms, db') ->
  ms = map to_MatchedProvider (provider_query ST_Distance db cat lat lng radius limit)
  /\ db' = db.
Proof.
  destruct (db_postgis db) eqn:H.
  - rewrite (findMatchingProviders_up _ _ _ _ _ _ H). intros E. injection E as <- <-. auto.
  - rewrite (findMatchingProviders_down _ _ _ _ _ _ H). discriminate.
Qed.

End MatcherClaims.

Section MatcherTheorems.
Import BookingMatch.
Local Open Scope Q_scope.
Variable ST_Distance : GeoPoint -> GeoPoint -> Q.

Lemma not_In_nil {A} (l : list A) : (forall x, ~ In x l) -> l = [].
Proof. destruct l as [|x r]; [reflexivity|]. intros H. destruct (H x). left. reflexivity. Qed.


(** The booking endpoint asks for at most 50 providers. *)
Lemma createBooking_at_most_50 uuid now input db r db' :
  createBookingAndFindMatches ST_Distance uuid now input db = (inr r, db') ->
  (List.length (matchedProviders r) <= 50)%nat /\ totalMatches r = List.length (matchedProviders r).
Proof.
  unfold createBookingAndFindMatches, try_catch, bind.
  destruct (users db !! customerId input) as [c|]; [|simpl; discriminate].
  destruct (user_isActive c); [|simpl; discriminate]. simpl.
  destruct (serviceCategories db !! serviceCategorySlug input) as [sc|]; [|simpl; discriminate].
  destruct (sc_isActive sc); [|simpl; discriminate]. simpl.
  unfold booking_create. simpl.
  destruct (bookings db !! uuid); [simpl; discriminate|].
  match goal with
  | |- context [findMatchingProviders ?d ?c ?a ?b ?rad ?l ?s] =>
      destruct (findMatchingProviders d c a b rad l s) as [[e|ms] db1] eqn:E
  end.
  - destruct (instanceof_AppError e); simpl; discriminate.
  - intros H. injection H as <- <-. simpl. split; [|reflexivity].
    apply (findMatchingProviders_inr ST_Distance) in E. destruct E as [-> _].
    rewrite length_map. apply provider_query_length.
Qed.


End MatcherTheorems.

Section MatcherExamples.
Import BookingMatch Fixtures.
Local Open Scope Q_scope.

(** Scenario 2 of the specification: the higher score comes first. *)
Example scenario2_order :
  findMatchingProviders meridian_distance "cat1" 7 80 SEARCH_RADIUS_METERS MAX_PROVIDERS
    db_scenario2
  = (inr matches_scenario2, db_scenario2).
Proof. vm_compute. reflexivity. Qed.




Lemma booking_survives_matching_failure_witness :
  createBookingAndFindMatches meridian_distance "b9" "2026-01-20T10:00:00.000Z" input1
    db_no_postgis
  = (inl (new_GeospatialQueryError "Failed to execute provider matching query"),
     set_bookings
       (insert "b9" (new_booking "b9" "2026-01-20T10:00:00.000Z" input1 (sc_id category1)))
       db_no_postgis)
  /\ booking_status (new_booking "b9" "2026-01-20T10:00:00.000Z" input1 (sc_id category1))
     = BookingStatus.PENDING
  /\ bookings
       (createBookingAndFindMatches meridian_distance "b9" "2026-01-20T10:00:00.000Z" input1
          db_no_postgis).2 !! "b9"
     = Some (new_booking "b9" "2026-01-20T10:00:00.000Z" input1 (sc_id category1)).
Proof.
  apply (booking_survives_matching_failure meridian_distance "b9" "2026-01-20T10:00:00.000Z"
           input1 db_no_postgis customer1 category1); vm_compute; reflexivity.
Defined.

End MatcherExamples.

(** ** The trust score *)

Section TrustScoreClaims.
Import TrustScore Fixtures.
Local Open Scope Q_scope.

(** The [WHERE] clause of the bookings query never reads the argument. *)
Lemma bookings_where_any_provider vc p q row :
  bookings_where vc p row = bookings_where vc q row.
Proof. reflexivity. Qed.

(** With [use_variable] the completion rate is taken over the whole table,
    with [use_column] over every booking that has a provider. *)
Lemma bookings_where_use_variable p l :
  List.filter (bookings_where use_variable p) l = l.
Proof. induction l as [|x r IH]; simpl; [reflexivity|]. rewrite IH. reflexivity. Qed.

Lemma bookings_where_use_column p l :
  List.filter (bookings_where use_column p) l
  = List.filter (fun row => bool_decide (provider_id row <> None)) l.
Proof.
  induction l as [|x r IH]; simpl; [reflexivity|]. rewrite IH.
  destruct (provider_id x); reflexivity.
Qed.

(** C7 at a failing input.  Provider A has no bookings at all, so the
    completion component is to be 0 and the score 0.1 x 50 = 5.  The
    function instead counts the bookings of every provider: under either
    lenient conflict setting it returns 45 (B's completed booking gives A
    a completion rate of 100), and under the server default it raises. *)
Theorem completion_rate_counts_other_providers :
  (match spec_trust_score tables_other_booking "A" with
   | Some s => s == 5
   | None => False
   end)
  /\ returns_score (calculate_provider_trust_score use_variable tables_other_booking "A") 45
  /\ returns_score (calculate_provider_trust_score use_column tables_other_booking "A") 45
  /\ calculate_provider_trust_score conflict_error tables_other_booking "A"
     = Raise "column reference provider_id is ambiguous".
Proof. vm_compute. repeat split; reflexivity. Qed.

Lemma COUNT_filter_le {A} (f : A -> bool) (l : list A) :
  (0 <= COUNT (List.filter f l) <= COUNT l)%Z.
Proof.
  unfold COUNT. split; [lia|].
  apply Nat2Z.inj_le. induction l as [|x r IH]; simpl; [lia|].
  destruct (f x); simpl; lia.
Qed.

Lemma inject_Z_pos (b : Z) : (0 < b)%Z -> 0 < inject_Z b.
Proof. intros H. unfold Qlt. simpl. lia. Qed.

Lemma inject_Z_nonneg (a : Z) : (0 <= a)%Z -> 0 <= inject_Z a.
Proof. intros H. unfold Qle. simpl. lia. Qed.

Lemma ratio_percent_bounds (a b : Z) :
  (0 <= a <= b)%Z -> (0 < b)%Z ->
  0 <= inject_Z a / inject_Z b * 100 <= 100.
Proof.
  intros [Ha Hab] Hb.
  assert (Hb' : 0 < inject_Z b) by (apply inject_Z_pos; exact Hb).
  assert (H0 : 0 <= inject_Z a / inject_Z b).
  { apply Qle_shift_div_l; [exact Hb'|]. rewrite Qmult_0_l.
    apply inject_Z_nonneg. exact Ha. }
  assert (H1 : inject_Z a / inject_Z b <= 1).
  { apply Qle_shift_div_r; [exact Hb'|]. rewrite Qmult_1_l.
    rewrite <- Zle_Qle. exact Hab. }
  split; lra.
Qed.

Lemma completion_rate_bounds rows : 0 <= completion_rate_of rows <= 100.
Proof.
  unfold completion_rate_of, NULLIF.
  destruct (COUNT rows =? 0)%Z eqn:E; simpl.
  - split; discriminate.
  - apply ratio_percent_bounds; [apply COUNT_filter_le|].
    apply Z.eqb_neq in E. unfold COUNT in *. lia.
Qed.

Lemma verification_score_bounds rows : 0 <= verification_score_of rows <= 100.
Proof.
  unfold verification_score_of.
  destruct (COUNT rows =? 0)%Z eqn:E.
  - split; discriminate.
  - apply ratio_percent_bounds; [apply COUNT_filter_le|].
    apply Z.eqb_neq in E. unfold COUNT in *. lia.
Qed.

Lemma response_score_bounds m : 0 <= response_score_case m <= 100.
Proof.
  unfold response_score_case. destruct m as [m|]; [|split; discriminate].
  destruct (Qle_bool m 15); [split; discriminate|].
  destruct (Qle_bool m 30); [split; discriminate|].
  destruct (Qle_bool m 60); split; discriminate.
Qed.

Lemma sum_bounds (xs : list Q) :
  (forall x, In x xs -> 0 <= x <= 5) ->
  0 <= fold_right Qplus 0 xs <= 5 * inject_Z (COUNT xs).
Proof.
  induction xs as [|x r IH]; intros H.
  - simpl. split; discriminate.
  - assert (Hx : 0 <= x <= 5) by (apply H; left; reflexivity).
    assert (Hr : 0 <= fold_right Qplus 0 r <= 5 * inject_Z (COUNT r))
      by (apply IH; intros y Hy; apply H; right; exact Hy).
    assert (E : inject_Z (COUNT (x :: r)) == inject_Z (COUNT r) + 1).
    { unfold COUNT. simpl List.length. rewrite Nat2Z.inj_succ, <- Z.add_1_r.
      rewrite inject_Z_plus. reflexivity. }
    simpl fold_right. rewrite E. lra.
Qed.

Lemma avg_rating_bounds rows :
  (forall r, In r rows -> 0 <= rating r <= 5) ->
  0 <= avg_rating_of rows <= 100.
Proof.
  intros H. unfold avg_rating_of, AVG.
  destruct (map rating rows) as [|x xs] eqn:E; simpl COALESCE.
  - split; discriminate.
  - assert (Hs : 0 <= fold_right Qplus 0 (x :: xs) <= 5 * inject_Z (COUNT (x :: xs))).
    { apply sum_bounds. intros y Hy. rewrite <- E in Hy.
      apply in_map_iff in Hy. destruct Hy as (r & <- & Hr). apply H. exact Hr. }
    assert (Hn : 0 < inject_Z (COUNT (x :: xs))).
    { apply inject_Z_pos. unfold COUNT. simpl List.length. lia. }
    set (s := fold_right Qplus 0 (x :: xs)) in *.
    set (n := inject_Z (COUNT (x :: xs))) in *.
    assert (H0 : 0 <= s / n).
    { apply Qle_shift_div_l; [exact Hn|]. lra. }
    assert (H5 : s / n <= 5).
    { apply Qle_shift_div_r; [exact Hn|]. lra. }
    change (0 <= s / n * 20 <= 100). split; lra.
Qed.

Lemma weighted_bounds c a v r :
  0 <= c <= 100 -> 0 <= a <= 100 -> 0 <= v <= 100 -> 0 <= r <= 100 ->
  0 <= weighted c a v r <= 100.
Proof. intros. unfold weighted. lra. Qed.

(** C8, as amended.  No clamp is applied.  When the conflict setting lets
    the function run, the provider has a profile row, and every rating of
    the provider lies between 0 and 5, the function returns a score and
    that score lies between 0 and 100; this covers a provider with no
    bookings, reviews or documents. *)
Theorem trust_score_in_range (vc : variable_conflict) (t : Tables) (p : string) :
  vc <> conflict_error ->
  (exists row, In row (profiles t) /\ profile_user_id row = p) ->
  (forall r, In r (reviews t) -> target_id r = p -> 0 <= rating r <= 5) ->
  exists s,
    calculate_provider_trust_score vc t p = Return (Some s) /\ 0 <= s <= 100.
Proof.
  intros Hvc (row & Hin & Hid) Hr.
  assert (Hp : exists x xs,
             List.filter (fun r => String.eqb (profile_user_id r) p) (profiles t) = x :: xs).
  { destruct (List.filter (fun r => String.eqb (profile_user_id r) p) (profiles t))
      as [|x xs] eqn:E; [|eauto].
    assert (Hf : In row (List.filter (fun r => String.eqb (profile_user_id r) p) (profiles t))).
    { apply filter_In. split; [exact Hin|]. apply String.eqb_eq. exact Hid. }
    rewrite E in Hf. destruct Hf. }
  destruct Hp as (x & xs & Hp).
  assert (Bounds : forall rows,
             0 <= weighted (completion_rate_of rows)
                    (avg_rating_of
                       (List.filter (fun r => String.eqb (target_id r) p) (reviews t)))
                    (verification_score_of
                       (List.filter (fun r => String.eqb (doc_user_id r) p)
                          (verification_docs t)))
                    (response_score_case (response_time_min x)) <= 100).
  { intros rows. apply weighted_bounds.
    - apply completion_rate_bounds.
    - apply avg_rating_bounds. intros r Hrin. apply filter_In in Hrin.
      destruct Hrin as [Hrin Heq]. apply Hr; [exact Hrin|]. apply String.eqb_eq. exact Heq.
    - apply verification_score_bounds.
    - apply response_score_bounds. }
  destruct vc; [contradiction| |];
    unfold calculate_provider_trust_score; rewrite Hp; simpl response_score_of;
    eexists; (split; [reflexivity | apply Bounds]).
Qed.

Lemma trust_score_in_range_witness :
  exists s,
    calculate_provider_trust_score use_column tables_rating_4 "A" = Return (Some s)
    /\ 0 <= s <= 100.
Proof.
  apply (trust_score_in_range use_column tables_rating_4 "A").
  - discriminate.
  - eexists. split; [left; reflexivity | reflexivity].
  - intros r [<-|[]] _. split; discriminate.
Defined.

(** A provider with a profile and no history at all scores 5. *)
Example trust_score_no_history :
  returns_score
    (calculate_provider_trust_score use_column
       {| bookings := []; reviews := []; verification_docs := [];
          profiles := [ {| profile_user_id := "A"; response_time_min := None |} ] |} "A") 5.
Proof. vm_compute. reflexivity. Qed.

(** C8, as stated, fails: one review with a rating of 10 takes the score
    of a provider with a perfect record to 130. *)
Lemma trust_score_exceeds_100 :
  returns_score (calculate_provider_trust_score use_column tables_rating_10 "A") 130
  /\ returns_score (calculate_provider_trust_score use_variable tables_rating_10 "A") 130
  /\ Qle_bool 130 100 = false.
Proof. vm_compute. repeat split; reflexivity. Qed.

End TrustScoreClaims.

(** * Further properties *)

(** ** The signature format *)

Section SignatureFormat.
Local Open Scope Z_scope.

Lemma le_bytes_length n x : List.length (MD5.le_bytes n x) = n.
Proof. unfold MD5.le_bytes. rewrite length_map, length_seq. reflexivity. Qed.

Lemma le_bytes_range n x b : In b (MD5.le_bytes n x) -> 0 <= b < 256.
Proof.
  unfold MD5.le_bytes. intros H. apply in_map_iff in H. destruct H as (k & <- & _).
  change 255 with (Z.ones 8). rewrite Z.land_ones by lia.
  apply Z.mod_pos_bound. lia.
Qed.

Lemma digest_length bs : List.length (MD5.digest bs) = 16%nat.
Proof. unfold MD5.digest. rewrite !length_app, !le_bytes_length. reflexivity. Qed.

Lemma digest_range bs b : In b (MD5.digest bs) -> 0 <= b < 256.
Proof.
  unfold MD5.digest. intros H.
  repeat (apply in_app_or in H; destruct H as [H|H]);
    eapply le_bytes_range; exact H.
Qed.

Lemma hex_digit_upper x :
  0 <= x < 16 -> JsString.is_upper_hex (JsString.upper_ascii (MD5.hex_digit x)) = true.
Proof.
  intros H.
  assert (E : x = 0 \/ x = 1 \/ x = 2 \/ x = 3 \/ x = 4 \/ x = 5 \/ x = 6 \/ x = 7
              \/ x = 8 \/ x = 9 \/ x = 10 \/ x = 11 \/ x = 12 \/ x = 13 \/ x = 14 \/ x = 15)
    by lia.
  repeat (destruct E as [->|E]; [reflexivity|]). subst x. reflexivity.
Qed.

Lemma hex_upper bs :
  (forall b, In b bs -> 0 <= b < 256) ->
  String.length (JsString.toUpperCase (MD5.hex bs)) = (2 * List.length bs)%nat
  /\ JsString.string_forallb JsString.is_upper_hex (JsString.toUpperCase (MD5.hex bs)) = true.
Proof.
  induction bs as [|b r IH]; intros H; [split; reflexivity|].
  destruct IH as [IHl IHc]; [intros y Hy; apply H; right; exact Hy|].
  assert (Hb : 0 <= b < 256) by (apply H; left; reflexivity).
  split.
  - simpl. rewrite IHl. simpl. lia.
  - cbn [MD5.hex JsString.toUpperCase JsString.string_forallb]. rewrite IHc.
    rewrite !hex_digit_upper; [reflexivity| |].
    + change 15 with (Z.ones 4). rewrite Z.land_ones by lia. apply Z.mod_pos_bound. lia.
    + rewrite Z.shiftr_div_pow2 by lia. change (2 ^ 4) with 16. split.
      * apply Z.div_pos; lia.
      * apply Z.div_lt_upper_bound; lia.
Qed.

Lemma md5_upper_format s :
  String.length (JsString.toUpperCase (MD5.md5_hex s)) = 32%nat
  /\ JsString.string_forallb JsString.is_upper_hex (JsString.toUpperCase (MD5.md5_hex s)) = true.
Proof.
  unfold MD5.md5_hex.
  destruct (hex_upper (MD5.digest (MD5.bytes_of_string s))) as [Hl Hc].
  - apply digest_range.
  - rewrite Hl, digest_length. split; [reflexivity | exact Hc].
Qed.

(** X1.  Both PayHere hashes, the checkout hash and the notification
    signature, are always 32 characters long, each one of 0-9 or A-F,
    whatever the fields and the merchant secret; upper-casing such a hash
    again changes nothing. *)
Theorem payhere_hashes_are_upper_hex
  (merchantId orderId amount currency statusCode merchantSecret : string) :
  let checkout := PayHere.generatePayHereHash merchantId orderId amount currency merchantSecret in
  let notify :=
    PayHere.generateNotificationHash merchantId orderId amount currency statusCode
      merchantSecret in
  String.length checkout = 32%nat
  /\ JsString.string_forallb JsString.is_upper_hex checkout = true
  /\ JsString.toUpperCase checkout = checkout
  /\ String.length notify = 32%nat
  /\ JsString.string_forallb JsString.is_upper_hex notify = true
  /\ JsString.toUpperCase notify = notify.
Proof.
  intros checkout notify. unfold checkout, notify.
  unfold PayHere.generatePayHereHash, PayHere.generateNotificationHash.
  repeat split; try apply md5_upper_format; apply toUpperCase_idempotent.
Qed.

End SignatureFormat.

(** ** The payment webhook, in full *)

Section WebhookProperties.
Import PayHere.
Variable env : Env.

Lemma mapStatusCode_SUCCESS code : mapStatusCode code = SUCCESS -> code = "2".
Proof.
  unfold mapStatusCode.
  destruct (String.eqb_spec code "2") as [E|_]; [intros _; exact E|].
  destruct (String.eqb code "0"); [discriminate|].
  destruct (String.eqb code "-1"); [discriminate|].
  destruct (String.eqb code "-2"); [discriminate|].
  destruct (String.eqb code "-3"); discriminate.
Qed.

Lemma verify_status_code n :
  valid (verifyPaymentNotification env n) = true ->
  status (verifyPaymentNotification env n) = mapStatusCode (status_code n).
Proof.
  unfold verifyPaymentNotification. destruct (negb _); simpl; [discriminate | reflexivity].
Qed.

(** What the handler does with a verified notification for an existing
    booking, whatever its status. *)
Lemma handle_verified n db bid b :
  valid (verifyPaymentNotification env n) = true ->
  custom_1 n = Some bid ->
  JsString.truthy bid = true ->
  bookings db !! bid = Some b ->
  handlePaymentNotification env n db
  = (inr tt,
     add_audit (payment_audit bid (verifyPaymentNotification env n))
       (set_bookings
          (insert bid
             (with_paymentStatus
                (mapToPrismaPaymentStatus (status (verifyPaymentNotification env n))) b))
          db)).
Proof.
  intros Hv Hc Ht Hb.
  destruct (status (verifyPaymentNotification env n)) eqn:Hs;
    [rewrite (handle_success env n db bid b Hv Hs Hc Ht Hb); reflexivity | | |];
    unfold handlePaymentNotification; rewrite Hv, Hc, Ht, Hs; simpl; unfold bind;
    rewrite (booking_update_Some _ _ _ _ Hb); reflexivity.
Qed.

Lemma handle_unknown_booking n db bid :
  valid (verifyPaymentNotification env n) = true ->
  custom_1 n = Some bid ->
  JsString.truthy bid = true ->
  bookings db !! bid = None ->
  handlePaymentNotification env n db = (inl (PrismaError "P2025"), db).
Proof.
  intros Hv Hc Ht Hb. unfold handlePaymentNotification. rewrite Hv, Hc, Ht. simpl.
  unfold bind. rewrite (booking_update_None _ _ _ Hb). reflexivity.
Qed.

Lemma handle_no_booking_id n db :
  valid (verifyPaymentNotification env n) = true ->
  JsString.or_default (custom_1 n) "" = "" ->
  handlePaymentNotification env n db
  = (inl (JsError "Booking ID not found in notification custom params"), db).
Proof.
  intros Hv Hc. unfold handlePaymentNotification. rewrite Hv. simpl.
  destruct (custom_1 n) as [bid|]; [|reflexivity].
  destruct bid; [reflexivity|]. simpl in Hc. discriminate.
Qed.

(** The four ways a call can go. *)
Lemma handle_cases n db :
  (valid (verifyPaymentNotification env n) = false
   /\ handlePaymentNotification env n db
      = (inl (JsError "Invalid payment notification signature"), db))
  \/ (valid (verifyPaymentNotification env n) = true
      /\ JsString.or_default (custom_1 n) "" = ""
      /\ handlePaymentNotification env n db
         = (inl (JsError "Booking ID not found in notification custom params"), db))
  \/ (exists bid,
        valid (verifyPaymentNotification env n) = true
        /\ custom_1 n = Some bid /\ JsString.truthy bid = true
        /\ bookings db !! bid = None
        /\ handlePaymentNotification env n db = (inl (PrismaError "P2025"), db))
  \/ (exists bid b,
        valid (verifyPaymentNotification env n) = true
        /\ custom_1 n = Some bid /\ JsString.truthy bid = true
        /\ bookings db !! bid = Some b
        /\ handlePaymentNotification env n db
           = (inr tt,
              add_audit (payment_audit bid (verifyPaymentNotification env n))
                (set_bookings
                   (insert bid
                      (with_paymentStatus
                         (mapToPrismaPaymentStatus (status (verifyPaymentNotification env n)))
                         b))
                   db))).
Proof.
  destruct (valid (verifyPaymentNotification env n)) eqn:Hv.
  2:{ left. split; [reflexivity|]. apply handle_invalid. exact Hv. }
  right. destruct (custom_1 n) as [bid|] eqn:Hc.
  2:{ left. split; [reflexivity|]. split; [reflexivity|].
      apply handle_no_booking_id; [exact Hv|]. rewrite Hc. reflexivity. }
  destruct (JsString.truthy bid) eqn:Ht.
  2:{ left. split; [reflexivity|].
      assert (E : JsString.or_default (Some bid) "" = "") by (simpl; rewrite Ht; reflexivity).
      split; [exact E|]. apply handle_no_booking_id; [exact Hv|]. rewrite Hc. exact E. }
  right. destruct (bookings db !! bid) as [b|] eqn:Hb.
  - right. exists bid, b. repeat split; try assumption; try reflexivity.
    apply handle_verified; assumption.
  - left. exists bid. repeat split; try assumption; try reflexivity.
    apply (handle_unknown_booking n db bid); assumption.
Qed.


(** X3.  A call that fails, for whatever reason, leaves the database
    exactly as it was: nothing is written before the point of failure. *)
Theorem failed_notification_writes_nothing
  (n : PayHereNotification) (db : DB) (e : Exn) (db' : DB) :
  handlePaymentNotification env n db = (inl e, db') -> db' = db.
Proof.
  intros H.
  destruct (handle_cases n db)
    as [[_ E]|[(_ & _ & E)|[(bid & _ & _ & _ & _ & E)|(bid & b & _ & _ & _ & _ & E)]]];
    rewrite E in H; try discriminate; injection H as _ <-; reflexivity.
Qed.


(** X5.  The handler never puts a payment in escrow on its own account:
    if a booking is HELD_IN_ESCROW after a call and was not before, the
    call succeeded on a notification with a verified signature and status
    code 2 that names this booking. *)
Theorem escrow_only_by_verified_success
  (n : PayHereNotification) (db : DB) (r : Exn + unit) (db' : DB) (id : string) :
  handlePaymentNotification env n db = (r, db') ->
  booking_paymentStatus <$> bookings db' !! id = Some PaymentStatus.HELD_IN_ESCROW ->
  booking_paymentStatus <$> bookings db !! id <> Some PaymentStatus.HELD_IN_ESCROW ->
  r = inr tt
  /\ valid (verifyPaymentNotification env n) = true
  /\ status_code n = "2"
  /\ custom_1 n = Some id.
Proof.
  intros H Hafter Hbefore.
  destruct (handle_cases n db)
    as [[_ E]|[(_ & _ & E)|[(bid & _ & _ & _ & _ & E)|(bid & b & Hv & Hc & _ & Hb & E)]]];
    rewrite E in H; injection H as <- <-; try contradiction.
  simpl in Hafter. destruct (decide (bid = id)) as [->|Hne].
  - rewrite lookup_insert_eq in Hafter. simpl in Hafter.
    injection Hafter as Hs. repeat split; try assumption.
    apply mapStatusCode_SUCCESS. rewrite <- (verify_status_code n Hv).
    destruct (status (verifyPaymentNotification env n)); try discriminate. reflexivity.
  - rewrite lookup_insert_ne in Hafter by exact Hne. contradiction.
Qed.

End WebhookProperties.

Section WebhookWitnesses.
Import PayHere Fixtures.


Lemma failed_notification_writes_nothing_witness : db0 = db0.
Proof.
  apply (failed_notification_writes_nothing env0 notification_unknown db0
           (PrismaError "P2025") db0).
  vm_compute. reflexivity.
Defined.


Lemma escrow_only_by_verified_success_witness :
  @inr Exn unit tt = inr tt
  /\ valid (verifyPaymentNotification env0 notification0) = true
  /\ status_code notification0 = "2"
  /\ custom_1 notification0 = Some "b1".
Proof.
  apply (escrow_only_by_verified_success env0 notification0 db0 (inr tt) db_paid "b1").
  - vm_compute. reflexivity.
  - vm_compute. reflexivity.
  - vm_compute. discriminate.
Defined.

End WebhookWitnesses.

(** ** The release of an escrow *)

Section ReleaseProperties.
Import PayHere Fixtures.

Lemma release_not_found now db id :
  bookings db !! id = None ->
  releaseEscrowPayment now id db = (inl (JsError ("Booking not found: " +:+ id)), db).
Proof.
  intros H. unfold releaseEscrowPayment, bind, booking_findUnique. rewrite H. reflexivity.
Qed.

Lemma PaymentStatus_eq_dec (a b : PaymentStatus.t) : {a = b} + {a <> b}.
Proof. decide equality. Qed.

(** X6.  A release succeeds only on a booking whose payment is held in
    escrow: RELEASED is never reached from another payment status.  It then
    changes the payment status of that booking and nothing else, and logs
    one PAYMENT_RELEASED entry. *)
Theorem release_only_from_escrow (now : string) (db : DB) (id : string) (db' : DB) :
  releaseEscrowPayment now id db = (inr tt, db') ->
  exists b,
    bookings db !! id = Some b
    /\ booking_paymentStatus b = PaymentStatus.HELD_IN_ESCROW
    /\ bookings db' = <[id := with_paymentStatus PaymentStatus.RELEASED b]> (bookings db)
    /\ auditLog db' = auditLog db ++ [release_audit now id]
    /\ users db' = users db /\ profiles db' = profiles db
    /\ serviceCategories db' = serviceCategories db
    /\ providerSkills db' = providerSkills db.
Proof.
  intros H. destruct (bookings db !! id) as [b|] eqn:Hb.
  - destruct (PaymentStatus_eq_dec (booking_paymentStatus b) PaymentStatus.HELD_IN_ESCROW)
      as [Hp|Hp].
    + rewrite (release_ignores_booking_status now db id b Hb Hp) in H.
      injection H as <-. exists b. repeat split; assumption.
    + rewrite (release_requires_escrow now db id b Hb Hp) in H. discriminate.
  - rewrite (release_not_found now db id Hb) in H. discriminate.
Qed.

(** X7.  A release that fails writes nothing, and it fails in one of two
    ways: the booking does not exist, or its payment status, which the
    message names, is not HELD_IN_ESCROW. *)
Theorem failed_release_writes_nothing
  (now : string) (db : DB) (id : string) (e : Exn) (db' : DB) :
  releaseEscrowPayment now id db = (inl e, db') ->
  db' = db
  /\ ((bookings db !! id = None /\ e = JsError ("Booking not found: " +:+ id))
      \/ (exists b,
            bookings db !! id = Some b
            /\ booking_paymentStatus b <> PaymentStatus.HELD_IN_ESCROW
            /\ e = JsError ("Cannot release payment. Current status: "
                            +:+ PaymentStatus.to_string (booking_paymentStatus b)))).
Proof.
  intros H. destruct (bookings db !! id) as [b|] eqn:Hb.
  - destruct (PaymentStatus_eq_dec (booking_paymentStatus b) PaymentStatus.HELD_IN_ESCROW)
      as [Hp|Hp].
    + rewrite (release_ignores_booking_status now db id b Hb Hp) in H. discriminate.
    + rewrite (release_requires_escrow now db id b Hb Hp) in H.
      injection H as <- <-. split; [reflexivity|]. right. exists b. auto.
  - rewrite (release_not_found now db id Hb) in H.
    injection H as <- <-. split; [reflexivity|]. left. auto.
Qed.


Lemma release_only_from_escrow_witness :
  exists b,
    bookings db_completed !! "b1" = Some b
    /\ booking_paymentStatus b = PaymentStatus.HELD_IN_ESCROW
    /\ bookings db_released
       = <["b1" := with_paymentStatus PaymentStatus.RELEASED b]> (bookings db_completed)
    /\ auditLog db_released
       = auditLog db_completed ++ [release_audit "2026-01-15T17:00:00.000Z" "b1"]
    /\ users db_released = users db_completed /\ profiles db_released = profiles db_completed
    /\ serviceCategories db_released = serviceCategories db_completed
    /\ providerSkills db_released = providerSkills db_completed.
Proof.
  apply (release_only_from_escrow "2026-01-15T17:00:00.000Z" db_completed "b1" db_released).
  vm_compute. reflexivity.
Defined.

Lemma failed_release_writes_nothing_witness :
  db0 = db0
  /\ ((bookings db0 !! "b1" = None /\ JsError "Cannot release payment. Current status: PENDING"
                                     = JsError ("Booking not found: " +:+ "b1"))
      \/ (exists b,
            bookings db0 !! "b1" = Some b
            /\ booking_paymentStatus b <> PaymentStatus.HELD_IN_ESCROW
            /\ JsError "Cannot release payment. Current status: PENDING"
               = JsError ("Cannot release payment. Current status: "
                          +:+ PaymentStatus.to_string (booking_paymentStatus b)))).
Proof.
  apply (failed_release_writes_nothing "2026-01-15T17:00:00.000Z" db0 "b1"
           (JsError "Cannot release payment. Current status: PENDING") db0).
  vm_compute. reflexivity.
Defined.


End ReleaseProperties.

(** ** The fee split on whole amounts *)

Section WholeAmounts.
Import PayHere Fixtures.

Lemma holds_from_spec p fuel z k :
  holds_from p fuel z = true -> (z <= k < z + Z.of_nat fuel)%Z -> p k = true.
Proof.
  revert z. induction fuel as [|f IH]; intros z H Hk; [lia|].
  simpl in H. apply andb_prop in H. destruct H as [Hz Hr].
  destruct (Z.eq_dec k z) as [->|Hne]; [exact Hz|].
  apply (IH (z + 1)%Z Hr). lia.
Qed.

(** X9.  On every whole amount from 1 to 10000 the split is exact in the
    arithmetic the code runs in: the fee is the amount divided by ten and
    fee plus payout is the amount again. *)
Theorem whole_amount_split_exact (n : Z) :
  (1 <= n <= 10000)%Z ->
  PrimFloat.eqb
    (platformFee (calculatePaymentBreakdown (rupees n))
     + providerPayout (calculatePaymentBreakdown (rupees n))) (rupees n) = true
  /\ PrimFloat.eqb (platformFee (calculatePaymentBreakdown (rupees n))) (rupees n / 10) = true.
Proof.
  intros Hn.
  assert (H : holds_from (fun k => split_is_exact (rupees k)) (Z.to_nat 10000) 1 = true)
    by (vm_compute; reflexivity).
  pose proof (holds_from_spec _ _ _ n H) as H2.
  assert (Hr : (1 <= n < 1 + Z.of_nat (Z.to_nat 10000))%Z) by (rewrite Z2Nat.id; lia).
  specialize (H2 Hr). unfold split_is_exact in H2. apply andb_prop in H2. exact H2.
Qed.

Lemma whole_amount_split_exact_witness :
  PrimFloat.eqb
    (platformFee (calculatePaymentBreakdown (rupees 1000))
     + providerPayout (calculatePaymentBreakdown (rupees 1000))) (rupees 1000) = true
  /\ PrimFloat.eqb (platformFee (calculatePaymentBreakdown (rupees 1000))) (rupees 1000 / 10)
     = true.
Proof. apply (whole_amount_split_exact 1000). lia. Defined.

End WholeAmounts.

(** ** Booking creation, in full *)

Section CreationProperties.
Import BookingMatch.
Local Open Scope Q_scope.
Variable ST_Distance : GeoPoint -> GeoPoint -> Q.

(** The database after the booking of [input] has been written. *)
Let stored (uuid now : string) (input : CreateBookingMatchInput) (category : ServiceCategory)
  (db : DB) : DB :=
  set_bookings (insert uuid (new_booking uuid now input (sc_id category))) db.

(** The seven ways a call can go. *)
Lemma create_cases uuid now input db :
  (users db !! customerId input = None
   /\ createBookingAndFindMatches ST_Distance uuid now input db
      = (inl (new_CustomerNotFoundError (customerId input)), db))
  \/ (exists customer,
        users db !! customerId input = Some customer /\ user_isActive customer = false
        /\ createBookingAndFindMatches ST_Distance uuid now input db
           = (inl (new_AppError "Customer account is inactive" 400%Z
                     ErrorCode.CUSTOMER_NOT_FOUND), db))
  \/ (serviceCategories db !! serviceCategorySlug input = None
      /\ createBookingAndFindMatches ST_Distance uuid now input db
         = (inl (new_ServiceCategoryNotFoundError (serviceCategorySlug input)), db))
  \/ (exists category,
        serviceCategories db !! serviceCategorySlug input = Some category
        /\ sc_isActive category = false
        /\ createBookingAndFindMatches ST_Distance uuid now input db
           = (inl (new_AppError "Service category is currently inactive" 400%Z
                     ErrorCode.SERVICE_CATEGORY_NOT_FOUND), db))
  \/ (is_Some (bookings db !! uuid)
      /\ createBookingAndFindMatches ST_Distance uuid now input db
         = (inl (new_DatabaseError "Failed to create booking and find matches"), db))
  \/ (exists customer category,
        users db !! customerId input = Some customer /\ user_isActive customer = true
        /\ serviceCategories db !! serviceCategorySlug input = Some category
        /\ sc_isActive category = true
        /\ bookings db !! uuid = None
        /\ db_postgis db = false
        /\ createBookingAndFindMatches ST_Distance uuid now input db
           = (inl (new_GeospatialQueryError "Failed to execute provider matching query"),
              stored uuid now input category db))
  \/ (exists customer category,
        users db !! customerId input = Some customer /\ user_isActive customer = true
        /\ serviceCategories db !! serviceCategorySlug input = Some category
        /\ sc_isActive category = true
        /\ bookings db !! uuid = None
        /\ db_postgis db = true
        /\ createBookingAndFindMatches ST_Distance uuid now input db
           = (inr {| booking :=
                       formatBookingResponse (new_booking uuid now input (sc_id category));
                     matchedProviders :=
                       map to_MatchedProvider
                         (provider_query ST_Distance (stored uuid now input category db)
                            (sc_id category) (lat (location input)) (lng (location input))
                            SEARCH_RADIUS_METERS MAX_PROVIDERS);
                     totalMatches :=
                       List.length
                         (provider_query ST_Distance (stored uuid now input category db)
                            (sc_id category) (lat (location input)) (lng (location input))
                            SEARCH_RADIUS_METERS MAX_PROVIDERS) |},
              stored uuid now input category db)).
Proof.
  unfold createBookingAndFindMatches, try_catch, bind.
  destruct (users db !! customerId input) as [c|] eqn:Hu; [|left; split; reflexivity].
  right. destruct (user_isActive c) eqn:Ha; simpl.
  2:{ left. exists c. repeat split; reflexivity || assumption. }
  right. destruct (serviceCategories db !! serviceCategorySlug input) as [sc|] eqn:Hc;
    [|left; split; reflexivity].
  right. destruct (sc_isActive sc) eqn:Hsa; simpl.
  2:{ left. exists sc. repeat split; reflexivity || assumption. }
  right. unfold booking_create. simpl.
  destruct (bookings db !! uuid) as [old|] eqn:Hb.
  { left. split; [eexists; reflexivity | reflexivity]. }
  right. destruct (db_postgis db) eqn:Hg.
  - right. exists c, sc.
    rewrite (findMatchingProviders_up ST_Distance) by exact Hg.
    simpl. rewrite length_map. repeat split; reflexivity || assumption.
  - left. exists c, sc.
    rewrite (findMatchingProviders_down ST_Distance) by exact Hg.
    simpl. repeat split; reflexivity || assumption.
Qed.

(** X10.  Whatever goes wrong, the caller is thrown an [AppError], never a
    raw client error: the status is 404 or 400 for a customer or category
    that is missing or inactive, and 500 for a clash on the booking id or a
    failed provider query. *)
Theorem create_throws_only_AppErrors
  (uuid now : string) (input : CreateBookingMatchInput) (db : DB) (e : Exn) (db' : DB) :
  createBookingAndFindMatches ST_Distance uuid now input db = (inl e, db') ->
  exists a,
    e = AppErr a
    /\ (err_statusCode a = 404%Z \/ err_statusCode a = 400%Z \/ err_statusCode a = 500%Z)
    /\ (err_statusCode a = 500%Z <->
        err_class a = DatabaseError \/ err_class a = GeospatialQueryError).
Proof.
  intros H.
  destruct (create_cases uuid now input db)
    as [[_ E]|[(c & _ & _ & E)|[[_ E]|[(sc & _ & _ & E)|[[_ E]
       |[(c & sc & _ & _ & _ & _ & _ & _ & E)|(c & sc & _ & _ & _ & _ & _ & _ & E)]]]]]];
    rewrite E in H; try discriminate; injection H as <- _;
    eexists; (split; [reflexivity|]); simpl; (split; [auto|]);
    split; intros K; try discriminate; auto; destruct K; discriminate.
Qed.

(** X11.  A failed call has written nothing, with one exception: when the
    provider query is what failed, the new booking, and only it, has been
    stored.  Validation failures and a clash on the booking id leave the
    database as it was. *)
Theorem create_failure_writes
  (uuid now : string) (input : CreateBookingMatchInput) (db : DB) (e : Exn) (db' : DB) :
  createBookingAndFindMatches ST_Distance uuid now input db = (inl e, db') ->
  (db' = db /\ e <> new_GeospatialQueryError "Failed to execute provider matching query")
  \/ (exists category,
        serviceCategories db !! serviceCategorySlug input = Some category
        /\ e = new_GeospatialQueryError "Failed to execute provider matching query"
        /\ db_postgis db = false
        /\ bookings db !! uuid = None
        /\ db' = set_bookings (insert uuid (new_booking uuid now input (sc_id category))) db).
Proof.
  intros H.
  destruct (create_cases uuid now input db)
    as [[_ E]|[(c & _ & _ & E)|[[_ E]|[(sc & _ & _ & E)|[[_ E]
       |[(c & sc & _ & _ & Hc & _ & Hb & Hg & E)|(c & sc & _ & _ & _ & _ & _ & _ & E)]]]]]];
    rewrite E in H; try discriminate; injection H as <- <-;
    try (left; split; [reflexivity | discriminate]).
  right. exists sc. repeat split; assumption || reflexivity.
Qed.


(** Matching reads and never writes: whether the provider query
    succeeds or fails, the database after the call is the one before. *)
Theorem findMatchingProviders_reads_only
  (cat : string) (lat lng radius : Q) (limit : nat) (db : DB) :
  (findMatchingProviders ST_Distance cat lat lng radius limit db).2 = db.
Proof.
  destruct (db_postgis db) eqn:H.
  - rewrite (findMatchingProviders_up ST_Distance) by exact H. reflexivity.
  - rewrite (findMatchingProviders_down ST_Distance) by exact H. reflexivity.
Qed.

End CreationProperties.

Section CreationWitnesses.
Import BookingMatch Fixtures.
Local Open Scope Q_scope.

Lemma create_throws_only_AppErrors_witness :
  exists a,
    new_GeospatialQueryError "Failed to execute provider matching query" = AppErr a
    /\ (err_statusCode a = 404%Z \/ err_statusCode a = 400%Z \/ err_statusCode a = 500%Z)
    /\ (err_statusCode a = 500%Z <->
        err_class a = DatabaseError \/ err_class a = GeospatialQueryError).
Proof.
  apply (create_throws_only_AppErrors meridian_distance "b9" "2026-01-20T10:00:00.000Z"
           input1 db_no_postgis _
           (set_bookings
              (insert "b9" (new_booking "b9" "2026-01-20T10:00:00.000Z" input1 "cat1"))
              db_no_postgis)).
  vm_compute. reflexivity.
Defined.

Lemma create_failure_writes_witness :
  (db0 = db0
   /\ new_CustomerNotFoundError "nobody"
      <> new_GeospatialQueryError "Failed to execute provider matching query")
  \/ (exists category,
        serviceCategories db0 !! "hospital-companion" = Some category
        /\ new_CustomerNotFoundError "nobody"
           = new_GeospatialQueryError "Failed to execute provider matching query"
        /\ db_postgis db0 = false
        /\ bookings db0 !! "b9" = None
        /\ db0 = set_bookings
                   (insert "b9"
                      (new_booking "b9" "2026-01-20T10:00:00.000Z"
                         {| customerId := "nobody";
                            careRecipientName := "Sunil";
                            serviceCategorySlug := "hospital-companion";
                            location := {| lat := 7; lng := 80; address := None |};
                            scheduledDate := "2026-02-01T09:00:00.000Z";
                            notes := None |} (sc_id category))) db0).
Proof.
  apply (create_failure_writes meridian_distance "b9" "2026-01-20T10:00:00.000Z"
           {| customerId := "nobody";
              careRecipientName := "Sunil";
              serviceCategorySlug := "hospital-companion";
              location := {| lat := 7; lng := 80; address := None |};
              scheduledDate := "2026-02-01T09:00:00.000Z";
              notes := None |} db0 (new_CustomerNotFoundError "nobody") db0).
  vm_compute. reflexivity.
Defined.


End CreationWitnesses.

(** ** Ranking and display of the candidates *)

Section RankingProperties.
Import BookingMatch.
Local Open Scope Q_scope.
Variable ST_Distance : GeoPoint -> GeoPoint -> Q.

Lemma in_order_order_leb a b : in_order a b -> order_leb a b = true.
Proof.
  unfold in_order, order_leb. intros [Hlt|[Heq Hd]].
  - destruct (Qeq_bool (skill_trust_score a) (skill_trust_score b)) eqn:E.
    + apply Qeq_bool_iff in E. rewrite E in Hlt. destruct (Qlt_irrefl _ Hlt).
    + apply Qle_bool_iff. apply Qlt_le_weak. exact Hlt.
  - apply Qeq_bool_iff in Heq. rewrite Heq. apply Qle_bool_iff. exact Hd.
Qed.

Lemma in_order_trans a b c : in_order a b -> in_order b c -> in_order a c.
Proof.
  unfold in_order. intros [H1|[H1 D1]] [H2|[H2 D2]].
  - left. lra.
  - left. lra.
  - left. lra.
  - right. split; lra.
Qed.

Lemma order_leb_trans :
  Relations_1.Transitive (fun a b : ProviderMatchRawResult => order_leb a b = true).
Proof.
  intros a b c H1 H2. apply in_order_order_leb.
  apply (in_order_trans a b c); apply order_leb_in_order; assumption.
Qed.

Lemma StronglySorted_app_order {A} (R : A -> A -> Prop) (l1 l2 : list A) :
  StronglySorted R (l1 ++ l2) -> forall a b, In a l1 -> In b l2 -> R a b.
Proof.
  induction l1 as [|x r IH]; intros H a b Ha Hb; [destruct Ha|].
  simpl in H. inversion H as [|? ? Hs Hall]; subst.
  destruct Ha as [<-|Ha].
  - rewrite List.Forall_forall in Hall. apply Hall. apply in_or_app. right. exact Hb.
  - apply IH; assumption.
Qed.

(** X13.  [LIMIT] keeps the best rows: the rows returned and the rows cut
    off are together the qualifying rows, and every returned row comes, in
    the order of the query, before every row that was cut off (its stored
    score is higher, or equal with a distance that is not larger). *)
Theorem limit_keeps_the_best
  (db : DB) (cat : string) (lat lng radius : Q) (limit : nat) :
  Permutation
    (provider_query ST_Distance db cat lat lng radius limit
     ++ rows_beyond_limit ST_Distance db cat lat lng radius limit)
    (selected ST_Distance db cat lat lng radius)
  /\ forall a b,
       In a (provider_query ST_Distance db cat lat lng radius limit) ->
       In b (rows_beyond_limit ST_Distance db cat lat lng radius limit) ->
       in_order a b.
Proof.
  unfold provider_query, rows_beyond_limit. split.
  - rewrite firstn_skipn. apply order_by_perm.
  - intros a b Ha Hb. apply order_leb_in_order.
    set (l := order_by order_leb (selected ST_Distance db cat lat lng radius)) in *.
    apply (StronglySorted_app_order (fun a b => order_leb a b = true)
             (firstn limit l) (skipn limit l)); [|exact Ha|exact Hb].
    rewrite firstn_skipn. apply Sorted_StronglySorted; [exact order_leb_trans|].
    apply order_by_Sorted. apply order_leb_total.
Qed.



End RankingProperties.

Section RankingWitnesses.
Import BookingMatch Fixtures.
Local Open Scope Q_scope.

(** With a limit of 1, scenario 2 returns B and cuts A off. *)
Example limit_1_scenario2 :
  map provider_id (provider_query meridian_distance db_scenario2 "cat1" 7 80 10000 1) = ["B"]
  /\ map provider_id (rows_beyond_limit meridian_distance db_scenario2 "cat1" 7 80 10000 1)
     = ["A"].
Proof. vm_compute. split; reflexivity. Qed.


End RankingWitnesses.

Section RankingWitness2.
Import BookingMatch Fixtures.
Local Open Scope Q_scope.

Lemma limit_keeps_the_best_witness :
  in_order
    {| provider_id := "B"; full_name := "B"; skill_trust_score := 85;
       years_experience := 3; distance_meters := 9000.00 |}
    {| provider_id := "A"; full_name := "A"; skill_trust_score := 80;
       years_experience := 3; distance_meters := 8000.00 |}.
Proof.
  apply (proj2 (limit_keeps_the_best meridian_distance db_scenario2 "cat1" 7 80 10000 1)).
  - replace (provider_query meridian_distance db_scenario2 "cat1" 7 80 10000 1)
      with [ {| provider_id := "B"; full_name := "B"; skill_trust_score := 85;
                years_experience := 3; distance_meters := 9000.00 |} ]
      by (vm_compute; reflexivity).
    left. reflexivity.
  - replace (rows_beyond_limit meridian_distance db_scenario2 "cat1" 7 80 10000 1)
      with [ {| provider_id := "A"; full_name := "A"; skill_trust_score := 80;
                years_experience := 3; distance_meters := 8000.00 |} ]
      by (vm_compute; reflexivity).
    left. reflexivity.
Defined.

End RankingWitness2.

(** ** Emergency escalation, in full *)

Section EscalationProperties.
Import EmergencyEscalation EscalationFacts.
Variable sendSMS : string -> string -> string -> bool.

Lemma determineEmergencyNumber_address shift address db :
  shift_locationAddress shift = Some address ->
  determineEmergencyNumber shift db = (inr (number_for address), db).
Proof.
  intros H. unfold determineEmergencyNumber, number_for. rewrite H.
  destruct (first_hospital _ _); reflexivity.
Qed.

Lemma determineEmergencyNumber_null shift db :
  shift_locationAddress shift = None ->
  determineEmergencyNumber shift db
  = (inl (JsTypeError "Cannot read properties of null (reading 'toUpperCase')"), db).
Proof. intros H. unfold determineEmergencyNumber. rewrite H. reflexivity. Qed.

(** An escalation of an escalatable booking that has an address. *)
Lemma escalate_with_address input db b address :
  bookings db !! shiftId input = Some b ->
  escalatable (booking_status b) = true ->
  booking_locationAddress b = Some address ->
  escalateEmergency sendSMS input db
  = (inr {| success := true;
            emergencyNumber := number_for address;
            shiftFrozen := true;
            smsSent := sms_outcome sendSMS input (shift_of db b) (number_for address);
            incidentReported := true |},
     add_audit
       (escalation_audit input (shift_of db b) (number_for address)
          (sms_outcome sendSMS input (shift_of db b) (number_for address)))
       (set_bookings (insert (shiftId input) (frozen input b)) db)).
Proof.
  intros Hb He Ha. unfold escalateEmergency, try_catch, bind, shift_findUnique.
  rewrite Hb. simpl. rewrite He. simpl.
  rewrite (booking_update_Some _ _ _ _ Hb).
  rewrite (determineEmergencyNumber_address _ address) by exact Ha.
  reflexivity.
Qed.

(** An escalation of an escalatable booking without an address. *)
Lemma escalate_without_address input db b :
  bookings db !! shiftId input = Some b ->
  escalatable (booking_status b) = true ->
  booking_locationAddress b = None ->
  escalateEmergency sendSMS input db
  = (inl (JsTypeError "Cannot read properties of null (reading 'toUpperCase')"),
     set_bookings (insert (shiftId input) (frozen input b)) db).
Proof.
  intros Hb He Ha. unfold escalateEmergency, try_catch, bind, shift_findUnique.
  rewrite Hb. simpl. rewrite He. simpl.
  rewrite (booking_update_Some _ _ _ _ Hb).
  change (booking_locationAddress b = None)
    with (shift_locationAddress (shift_of db b) = None) in Ha.
  rewrite (determineEmergencyNumber_null (shift_of db b) _ Ha).
  reflexivity.
Qed.


(** X16.  A failed escalation has written nothing when the booking is
    missing or its status is not escalatable.  The one failure that leaves
    a trace is a booking without an address: it is frozen as DISPUTED
    first, then the number lookup throws a TypeError, and no audit entry is
    written. *)
Theorem failed_escalation_effect
  (input : EmergencyEscalationInput) (db : DB) (e : Exn) (db' : DB) :
  escalateEmergency sendSMS input db = (inl e, db') ->
  (db' = db /\ exists message, e = JsError message)
  \/ (exists b,
        bookings db !! shiftId input = Some b
        /\ booking_locationAddress b = None
        /\ e = JsTypeError "Cannot read properties of null (reading 'toUpperCase')"
        /\ bookings db' = <[shiftId input := frozen input b]> (bookings db)
        /\ auditLog db' = auditLog db).
Proof.
  intros H. destruct (bookings db !! shiftId input) as [b|] eqn:Hb.
  - destruct (escalatable (booking_status b)) eqn:He.
    + destruct (booking_locationAddress b) as [a|] eqn:Ha.
      * rewrite (escalate_with_address input db b a Hb He Ha) in H. discriminate.
      * rewrite (escalate_without_address input db b Hb He Ha) in H.
        injection H as <- <-. right. exists b. repeat split; reflexivity || assumption.
    + rewrite (escalate_wrong_status sendSMS input db b Hb He) in H.
      injection H as <- <-. left. split; [reflexivity | eexists; reflexivity].
  - rewrite (escalate_not_found sendSMS input db Hb) in H.
    injection H as <- <-. left. split; [reflexivity | eexists; reflexivity].
Qed.

(** X17.  The escalation is one-shot: once a call has succeeded, another
    escalation of the same booking is refused because the booking is
    DISPUTED, and the refusal changes nothing. *)
Theorem escalation_is_one_shot
  (input again : EmergencyEscalationInput) (db : DB)
  (r : EmergencyEscalationResult) (db' : DB) :
  escalateEmergency sendSMS input db = (inr r, db') ->
  shiftId again = shiftId input ->
  escalateEmergency sendSMS again db'
  = (inl (JsError "Cannot escalate emergency for shift in status: DISPUTED"), db').
Proof.
  intros H Hid. destruct (bookings db !! shiftId input) as [b|] eqn:Hb.
  - destruct (escalatable (booking_status b)) eqn:He.
    + destruct (booking_locationAddress b) as [a|] eqn:Ha.
      * rewrite (escalate_with_address input db b a Hb He Ha) in H.
        injection H as _ <-.
        apply (escalate_wrong_status sendSMS again _ (frozen input b)).
        -- rewrite Hid. apply lookup_insert_eq.
        -- reflexivity.
      * rewrite (escalate_without_address input db b Hb He Ha) in H. discriminate.
    + rewrite (escalate_wrong_status sendSMS input db b Hb He) in H. discriminate.
  - rewrite (escalate_not_found sendSMS input db Hb) in H. discriminate.
Qed.

Lemma first_hospital_listed s table n :
  first_hospital s table = Some n -> In n (map snd table).
Proof.
  induction table as [|[h m] r IH]; simpl; [discriminate|].
  destruct (JsString.includes s h); [intros E; injection E as <-; left; reflexivity|].
  intros E. right. apply IH. exact E.
Qed.

(** X18.  The number for an address is the national number 1990 or one of
    the listed hospital desks, never anything else; the lookup ignores
    letter case, so two addresses that agree up to case get the same
    number; and looking a number up writes nothing. *)
Theorem emergency_number_lookup (shift : ShiftWithDetails) (address : string) (db : DB) :
  shift_locationAddress shift = Some address ->
  determineEmergencyNumber shift db = (inr (number_for address), db)
  /\ In (number_for address)
       ["1990"; "011-2691111"; "011-4665500"; "011-5777777"; "011-2140000"; "011-5530000"]
  /\ (forall other,
        JsString.toUpperCase other = JsString.toUpperCase address ->
        number_for other = number_for address).
Proof.
  intros H. split; [apply determineEmergencyNumber_address; exact H|]. split.
  - unfold number_for.
    destruct (first_hospital (JsString.toUpperCase address) hospitalEmergencyNumbers)
      as [n|] eqn:E; simpl.
    + apply first_hospital_listed in E. simpl in E. simpl.
      destruct E as [E|[E|[E|[E|[E|[E|[]]]]]]]; subst; auto 10.
    + left. reflexivity.
  - intros other Ho. unfold number_for. rewrite Ho. reflexivity.
Qed.

End EscalationProperties.

Section EscalationWitnesses.
Import EmergencyEscalation EscalationFacts Fixtures.


(** With the gateway down the number still comes back, unsent. *)
Example escalation_with_gateway_down :
  (escalateEmergency sms_down escalation1 db_in_progress).1
  = inr {| success := true; emergencyNumber := "011-4665500"; shiftFrozen := true;
           smsSent := false; incidentReported := true |}.
Proof. vm_compute. reflexivity. Qed.

Lemma failed_escalation_effect_witness :
  ((escalateEmergency sms_up escalation1 db_no_address).2 = db_no_address
   /\ exists message,
        JsTypeError "Cannot read properties of null (reading 'toUpperCase')" = JsError message)
  \/ (exists b,
        bookings db_no_address !! "b1" = Some b
        /\ booking_locationAddress b = None
        /\ JsTypeError "Cannot read properties of null (reading 'toUpperCase')"
           = JsTypeError "Cannot read properties of null (reading 'toUpperCase')"
        /\ bookings (escalateEmergency sms_up escalation1 db_no_address).2
           = <["b1" := frozen escalation1 b]> (bookings db_no_address)
        /\ auditLog (escalateEmergency sms_up escalation1 db_no_address).2
           = auditLog db_no_address).
Proof.
  apply (failed_escalation_effect sms_up escalation1 db_no_address
           (JsTypeError "Cannot read properties of null (reading 'toUpperCase')")
           (escalateEmergency sms_up escalation1 db_no_address).2).
  vm_compute. reflexivity.
Defined.

Lemma escalation_is_one_shot_witness :
  escalateEmergency sms_up escalation1 (escalateEmergency sms_up escalation1 db_in_progress).2
  = (inl (JsError "Cannot escalate emergency for shift in status: DISPUTED"),
     (escalateEmergency sms_up escalation1 db_in_progress).2).
Proof.
  apply (escalation_is_one_shot sms_up escalation1 escalation1 db_in_progress
           {| success := true; emergencyNumber := "011-4665500"; shiftFrozen := true;
              smsSent := true; incidentReported := true |}).
  - vm_compute. reflexivity.
  - reflexivity.
Defined.

Lemma emergency_number_lookup_witness :
  determineEmergencyNumber (shift_of db0 booking1) db0
  = (inr (number_for "Ward 4, Asiri Hospital, Colombo"), db0)
  /\ In (number_for "Ward 4, Asiri Hospital, Colombo")
       ["1990"; "011-2691111"; "011-4665500"; "011-5777777"; "011-2140000"; "011-5530000"]
  /\ (forall other,
        JsString.toUpperCase other = JsString.toUpperCase "Ward 4, Asiri Hospital, Colombo" ->
        number_for other = number_for "Ward 4, Asiri Hospital, Colombo").
Proof.
  apply (emergency_number_lookup (shift_of db0 booking1) "Ward 4, Asiri Hospital, Colombo" db0).
  reflexivity.
Defined.

End EscalationWitnesses.

(** ** The handlers *)

Section HandlerProperties.
Import Controllers.
Variable prisma_message : string -> string.
Variable ST_Distance : GeoPoint -> GeoPoint -> Q.
Variable sendSMS : string -> string -> string -> bool.

Lemma not_found_message_includes id :
  JsString.includes ("Shift not found: " +:+ id) "not found" = true.
Proof. reflexivity. Qed.

Lemma status_message_includes (s : BookingStatus.t) :
  JsString.includes
    ("Cannot escalate emergency for shift in status: " +:+ BookingStatus.to_string s)
    "not found" = false
  /\ JsString.includes
       ("Cannot escalate emergency for shift in status: " +:+ BookingStatus.to_string s)
       "active state" = false.
Proof. destruct s; vm_compute; split; reflexivity. Qed.

(** X19.  The escalation endpoint answers 200, 401, 400 VALIDATION_ERROR or
    404 SHIFT_NOT_FOUND, or hands the error on to the global handler, which
    answers 500 INTERNAL_SERVER_ERROR with the error's message.  It never
    answers 400 INVALID_SHIFT_STATE: that branch looks for the words
    "active state", which no error of the service carries. *)
Theorem escalation_endpoint_answers (req : EscalateRequest) (db : DB) :
  let reply := (escalateEmergencyHandler prisma_message sendSMS req db).1 in
  (exists data, reply = Success 200 data)
  \/ reply = Failure 401 {| code := "UNAUTHORIZED"; message := "Authentication required" |}
  \/ reply = Failure 400 {| code := "VALIDATION_ERROR"; message := "Invalid request body" |}
  \/ reply = Failure 404 {| code := "SHIFT_NOT_FOUND";
                            message := "Shift not found: " +:+ req_shiftId req |}
  \/ (exists e,
        reply = Next e
        /\ @globalErrorHandler EscalatedData e
           = Failure 500 {| code := "INTERNAL_SERVER_ERROR"; message := message_of prisma_message e |}).
Proof.
  unfold escalateEmergencyHandler.
  destruct (req_userId req) as [userId|]; [|right; left; reflexivity].
  destruct (JsString.truthy userId); simpl; [|right; left; reflexivity].
  destruct (parse_triggeredBy (body_triggeredBy req)) as [t|];
    [|right; right; left; reflexivity].
  destruct (location_ok (body_location req)); [|right; right; left; reflexivity].
  set (input := {| EmergencyEscalation.shiftId := req_shiftId req;
                   EmergencyEscalation.triggeredBy := t;
                   EmergencyEscalation.triggeredByUserId := userId;
                   EmergencyEscalation.reason := body_reason req;
                   EmergencyEscalation.location := body_location req |}).
  destruct (bookings db !! EmergencyEscalation.shiftId input) as [b|] eqn:Hb.
  - destruct (EmergencyEscalation.escalatable (booking_status b)) eqn:He.
    + destruct (booking_locationAddress b) as [a|] eqn:Ha.
      * rewrite (escalate_with_address sendSMS input db b a Hb He Ha).
        left. eexists. reflexivity.
      * rewrite (escalate_without_address sendSMS input db b Hb He Ha).
        right. right. right. right. eexists. split; reflexivity.
    + rewrite (escalate_wrong_status sendSMS input db b Hb He).
      cbn [message_of].
      destruct (status_message_includes (booking_status b)) as [-> ->].
      right. right. right. right. eexists. split; reflexivity.
  - rewrite (escalate_not_found sendSMS input db Hb).
    cbn [message_of]. rewrite not_found_message_includes.
    right. right. right. left. reflexivity.
Qed.

(** X20.  An authenticated, well-formed escalation request for a booking
    whose status does not allow it is not answered by the handler: the
    service's error is handed to [next] with the database untouched, and
    the global handler turns it into a 500 carrying the service's message. *)
Theorem escalation_refusal_is_a_500 (req : EscalateRequest) (db : DB)
  (userId : string) (t : EmergencyEscalation.TriggeredBy) (b : Booking) :
  req_userId req = Some userId ->
  JsString.truthy userId = true ->
  parse_triggeredBy (body_triggeredBy req) = Some t ->
  location_ok (body_location req) = true ->
  bookings db !! req_shiftId req = Some b ->
  EmergencyEscalation.escalatable (booking_status b) = false ->
  let refusal :=
    JsError ("Cannot escalate emergency for shift in status: "
             +:+ BookingStatus.to_string (booking_status b)) in
  escalateEmergencyHandler prisma_message sendSMS req db = (Next refusal, db)
  /\ @globalErrorHandler EscalatedData refusal
     = Failure 500
         {| code := "INTERNAL_SERVER_ERROR";
            message := "Cannot escalate emergency for shift in status: "
                       +:+ BookingStatus.to_string (booking_status b) |}.
Proof.
  intros Hu Ht Hp Hl Hb He refusal. split; [|reflexivity].
  unfold escalateEmergencyHandler. rewrite Hu, Ht, Hp, Hl. simpl.
  match goal with
  | |- context [EmergencyEscalation.escalateEmergency sendSMS ?i db] =>
      rewrite (escalate_wrong_status sendSMS i db b Hb He)
  end.
  cbn [message_of].
  destruct (status_message_includes (booking_status b)) as [-> ->]. reflexivity.
Qed.

(** X21.  The booking endpoint answers every validated request itself and
    never hands a service error to [next]: 201 with the stored booking, or
    an [AppError] body with status 404 or 400 and nothing written, or 500
    DATABASE_ERROR with nothing written, or 500 GEOSPATIAL_QUERY_ERROR with
    the new booking left in the database. *)
Theorem booking_endpoint_answers
  (uuid now : string) (input : BookingMatch.CreateBookingMatchInput) (db : DB) :
  let out := createBookingMatchHandler ST_Distance uuid now (Validated input) db in
  (exists result category,
      out.1 = Success 201 result
      /\ serviceCategories db !! BookingMatch.serviceCategorySlug input = Some category
      /\ out.2 = set_bookings
                   (insert uuid (BookingMatch.new_booking uuid now input (sc_id category))) db)
  \/ (exists status body,
        out.1 = Failure status body /\ (status = 404 \/ status = 400)%Z /\ out.2 = db)
  \/ (exists body,
        out.1 = Failure 500 body /\ code body = "DATABASE_ERROR" /\ out.2 = db)
  \/ (exists body category,
        out.1 = Failure 500 body /\ code body = "GEOSPATIAL_QUERY_ERROR"
        /\ serviceCategories db !! BookingMatch.serviceCategorySlug input = Some category
        /\ out.2 = set_bookings
                     (insert uuid (BookingMatch.new_booking uuid now input (sc_id category)))
                     db).
Proof.
  unfold createBookingMatchHandler.
  destruct (create_cases ST_Distance uuid now input db)
    as [[_ E]|[(c & _ & _ & E)|[[_ E]|[(sc & _ & _ & E)|[[_ E]
       |[(c & sc & _ & _ & Hc & _ & _ & _ & E)|(c & sc & _ & _ & Hc & _ & _ & _ & E)]]]]]];
    rewrite E; simpl.
  - right. left. eexists. eexists. split; [reflexivity|]. split; [left|]; reflexivity.
  - right. left. eexists. eexists. split; [reflexivity|]. split; [right|]; reflexivity.
  - right. left. eexists. eexists. split; [reflexivity|]. split; [left|]; reflexivity.
  - right. left. eexists. eexists. split; [reflexivity|]. split; [right|]; reflexivity.
  - right. right. left. eexists. split; [reflexivity|]. split; reflexivity.
  - right. right. right. eexists. exists sc. repeat split; reflexivity || assumption.
  - left. eexists. exists sc. repeat split; reflexivity || assumption.
Qed.

End HandlerProperties.

Section HandlerWitnesses.
Import Controllers Fixtures.

Lemma escalation_refusal_is_a_500_witness :
  let refusal :=
    JsError ("Cannot escalate emergency for shift in status: "
             +:+ BookingStatus.to_string (booking_status booking1_released)) in
  escalateEmergencyHandler prisma_text sms_up escalate_request db_released
  = (Next refusal, db_released)
  /\ @globalErrorHandler EscalatedData refusal
     = Failure 500
         {| code := "INTERNAL_SERVER_ERROR";
            message := "Cannot escalate emergency for shift in status: "
                       +:+ BookingStatus.to_string (booking_status booking1_released) |}.
Proof.
  apply (escalation_refusal_is_a_500 prisma_text sms_up escalate_request db_released
           "p1" EmergencyEscalation.PROVIDER booking1_released);
    vm_compute; reflexivity.
Defined.

(** The same request while the booking is in progress is answered 200. *)
Example escalation_request_in_progress :
  (escalateEmergencyHandler prisma_text sms_up escalate_request db_in_progress).1
  = Success 200
      {| data_message := "Emergency escalated successfully";
         data_emergencyNumber := "011-4665500";
         data_shiftFrozen := true;
         data_smsSentToEmergencyContact := true;
         data_incidentReported := true;
         data_instructions :=
           "Immediately call the emergency number provided. The emergency contact has been notified." |}.
Proof. vm_compute. reflexivity. Qed.

End HandlerWitnesses.

(** ** Replayed notifications *)

Section Replay.
Import PayHere Fixtures.

(** X22.  Replaying any notification that was handled successfully,
    whatever its status code, succeeds again, leaves every booking as the
    first handling left it, and appends one more audit entry. *)
Theorem replayed_notification
  (env : Env) (n : PayHereNotification) (db db1 : DB) :
  handlePaymentNotification env n db = (inr tt, db1) ->
  exists db2,
    handlePaymentNotification env n db1 = (inr tt, db2)
    /\ bookings db2 = bookings db1
    /\ List.length (auditLog db2) = S (List.length (auditLog db1)).
Proof.
  intros H.
  destruct (handle_cases env n db)
    as [[_ E]|[(_ & _ & E)|[(bid & _ & _ & _ & _ & E)|(bid & b & Hv & Hc & Ht & Hb & E)]]];
    rewrite E in H; try discriminate.
  injection H as <-.
  set (b' := with_paymentStatus
               (mapToPrismaPaymentStatus (status (verifyPaymentNotification env n))) b).
  set (db1 := add_audit _ _).
  assert (Hb1 : bookings db1 !! bid = Some b') by apply lookup_insert_eq.
  rewrite (handle_verified env n db1 bid b' Hv Hc Ht Hb1).
  eexists. split; [reflexivity|]. split.
  - simpl. unfold b'. rewrite with_paymentStatus_twice. fold b'.
    apply insert_id. exact Hb1.
  - simpl. rewrite length_app. simpl. lia.
Qed.

Lemma replayed_notification_witness :
  exists db2,
    handlePaymentNotification env0 notification0 db_paid = (inr tt, db2)
    /\ bookings db2 = bookings db_paid
    /\ List.length (auditLog db2) = S (List.length (auditLog db_paid)).
Proof.
  apply (replayed_notification env0 notification0 db0 db_paid). vm_compute. reflexivity.
Defined.

End Replay.

(** ** The trust score, further *)

Section TrustScoreProperties.
Import TrustScore Fixtures.
Local Open Scope Q_scope.

(** X23.  Without a row in [profiles] the score is NULL, whatever the
    provider's bookings, reviews and documents: the response component is
    NULL and the sum with it.  (Under the default conflict setting the
    call raises before that.) *)
Theorem trust_score_null_without_profile
  (vc : variable_conflict) (t : Tables) (p : string) :
  vc <> conflict_error ->
  (forall row, In row (profiles t) -> profile_user_id row <> p) ->
  calculate_provider_trust_score vc t p = Return None.
Proof.
  intros Hvc Hno.
  assert (E : List.filter (fun r => String.eqb (profile_user_id r) p) (profiles t) = []).
  { apply not_In_nil. intros row Hrow. apply filter_In in Hrow. destruct Hrow as [Hin Heq].
    apply String.eqb_eq in Heq. exact (Hno row Hin Heq). }
  destruct vc; [contradiction| |]; unfold calculate_provider_trust_score; rewrite E;
    reflexivity.
Qed.

Lemma trust_score_null_without_profile_witness :
  calculate_provider_trust_score use_column tables_no_profile "A" = Return None.
Proof.
  apply (trust_score_null_without_profile use_column tables_no_profile "A").
  - discriminate.
  - intros row [].
Defined.

(** X24.  The response component never rewards a slower provider: it
    takes one of the values 100, 80, 60 and 40, and a longer response time
    never gives a higher value.  A provider with no recorded response time
    gets 50, below every provider who answers within the hour. *)
Theorem response_score_monotone (m1 m2 : Q) :
  m1 <= m2 ->
  response_score_case (Some m2) <= response_score_case (Some m1)
  /\ In (response_score_case (Some m1)) [100; 80; 60; 40]
  /\ (m1 <= 60 -> response_score_case None < response_score_case (Some m1)).
Proof.
  intros H. unfold response_score_case.
  destruct (Qle_bool m1 15) eqn:A1; destruct (Qle_bool m1 30) eqn:B1;
    destruct (Qle_bool m1 60) eqn:C1;
    destruct (Qle_bool m2 15) eqn:A2; destruct (Qle_bool m2 30) eqn:B2;
    destruct (Qle_bool m2 60) eqn:C2;
    try apply Qle_bool_iff in A1; try apply Qle_bool_iff in B1; try apply Qle_bool_iff in C1;
    try apply Qle_bool_iff in A2; try apply Qle_bool_iff in B2; try apply Qle_bool_iff in C2;
    repeat match goal with
           | K : Qle_bool ?a ?b = false |- _ =>
               assert (~ a <= b) by (intros L; apply Qle_bool_iff in L; congruence); clear K
           end;
    (split; [try discriminate; exfalso; lra
            | split; [simpl; auto 6 | intros L; try reflexivity; exfalso; lra]]).
Qed.

Lemma response_score_monotone_witness :
  response_score_case (Some 45) <= response_score_case (Some 10)
  /\ In (response_score_case (Some 10)) [100; 80; 60; 40]
  /\ (10 <= 60 -> response_score_case None < response_score_case (Some 10)).
Proof. apply (response_score_monotone 10 45). discriminate. Defined.

End TrustScoreProperties.
